(** * iMac Security System: the detection-and-recording controller

    A shallow embedding of [CameraManager], [AudioManager] and the tick
    loop [SecurityApp.update_preview] of [imac-security(backup_nossh).py],
    with the properties of the controller proved about it.

    Conventions.
    - Python floats ([time.time()], percentages, thresholds) are idealised
      as exact rationals [Q].
    - OpenCV images are numpy arrays: a shape and a buffer of 8-bit
      samples.  The OpenCV primitives whose arithmetic the program fixes
      ([absdiff], [threshold], counting) are written out; the others
      (colour conversion, blur, weighted blend, the MOG2 subtractor,
      dilation) are parameters of the development.
    - Objects handed out by libraries and mutated in place (video writers,
      wave files) live in an explicit store, [World].
    - What a tick obtains from outside (the frame, the clock, the audio
      read, whether a new video writer opens) is an input of the tick.
      Library calls the program does not guard are followed on their
      returning path; the exception that is tracked is [cv2.absdiff]
      raising on arrays of different sizes, which leaves [update_preview]
      before anything has been assigned. *)

From Stdlib Require Import ZArith QArith Qround Bool String Lia.
From stdpp Require Import base list gmap strings.

Open Scope Z_scope.

(** ** Rational comparisons, as booleans *)

(** [x > y] on floats. *)
Definition Qgtb (x y : Q) : bool := negb (Qle_bool x y).
(** [x < y] on floats. *)
Definition Qltb (x y : Q) : bool := negb (Qle_bool y x).

(** Python's [max(a, b)]: the first argument unless the second is larger. *)
Definition py_max (a b : Q) : Q := if Qgtb b a then b else a.

(** ** Gray images *)

(** A single-channel 8-bit numpy array: [shape[0]], [shape[1]] and the
    samples in row-major order. *)
Record gray : Type := Gray {
  shape0 : nat;
  shape1 : nat;
  pixels : list Z
}.

Definition same_shape (a b : gray) : bool :=
  Nat.eqb (shape0 a) (shape0 b) && Nat.eqb (shape1 a) (shape1 b).

(** [saturate_cast<uchar>]. *)
Definition saturate (v : Z) : Z := Z.max 0 (Z.min 255 v).

(** [cv2.absdiff(a, b)]: per-pixel [|a - b|]; it raises [cv2.error] when
    the sizes of the two arrays differ ([None]). *)
Definition absdiff (a b : gray) : option gray :=
  if same_shape a b
  then Some (Gray (shape0 a) (shape1 a)
               (zip_with (fun x y => saturate (Z.abs (x - y))) (pixels a) (pixels b)))
  else None.

(** [cv2.threshold(src, t, maxval, cv2.THRESH_BINARY)[1]]. *)
Definition threshold_binary (src : gray) (t maxval : Z) : gray :=
  Gray (shape0 src) (shape1 src)
       (map (fun v => if v >? t then maxval else 0) (pixels src)).

(** [np.sum(img == v)]. *)
Definition count_eq (img : gray) (v : Z) : Z :=
  Z.of_nat (length (filter (fun p => p = v) (pixels img))).

(** [thresh.shape[0] * thresh.shape[1]]. *)
Definition total_pixels (img : gray) : Z :=
  Z.of_nat (shape0 img) * Z.of_nat (shape1 img).

(** [(white_pixel_count / total_pixels) * 100]. *)
Definition movement_percentage (thresh : gray) : Q :=
  (inject_Z (count_eq thresh 255) / inject_Z (total_pixels thresh)) * 100.

(** [(30 - self.motion_sensitivity) / 5], the FastDifference trigger
    threshold, and [(30 - self.motion_sensitivity) / 10], the one of the
    background-subtraction branch. *)
Definition simple_threshold (motion_sensitivity : Z) : Q :=
  inject_Z (30 - motion_sensitivity) / 5.

Definition background_threshold (motion_sensitivity : Z) : Q :=
  inject_Z (30 - motion_sensitivity) / 10.

(** ** Frames and the OpenCV primitives left abstract *)

(** A BGR frame as [camera.read()] returns it: shape and samples. *)
Record frame : Type := Frame {
  frame_shape0 : nat;
  frame_shape1 : nat;
  bgr : list (Z * Z * Z)
}.

(** The OpenCV operations whose arithmetic is the library's own.  The
    state of a [BackgroundSubtractorMOG2] object is determined by the
    frames it has been applied to, oldest first; [mog2_mask history img]
    is the foreground mask [apply] returns for [img] after [history]. *)
Class OpenCV : Type := {
  cvtColor_BGR2GRAY : frame -> gray;
  GaussianBlur_21 : gray -> gray;
  addWeighted : gray -> Q -> gray -> Q -> Q -> gray;
  mog2_mask : list gray -> gray -> gray;
  dilate : gray -> nat -> gray
}.

(** ** The shared configuration dictionary *)

Module Config.
Record t : Type := Make {
  output_directory : string;
  motion_sensitivity : Z;
  voice_detection_enabled : bool;
  post_detection_record_time : Z;
  use_simple_motion_detection : bool;
  selected_camera_index : Z;
  selected_microphone_index : option Z
}.

(** [ConfigManager.create_default_config]. *)
Definition default (dir : string) : t :=
  Make dir 20 true 10 true 0 None.

Definition set_use_simple_motion_detection (b : bool) (c : t) : t :=
  Make (output_directory c) (motion_sensitivity c) (voice_detection_enabled c)
       (post_detection_record_time c) b (selected_camera_index c)
       (selected_microphone_index c).

Definition set_selected_camera_index (i : Z) (c : t) : t :=
  Make (output_directory c) (motion_sensitivity c) (voice_detection_enabled c)
       (post_detection_record_time c) (use_simple_motion_detection c) i
       (selected_microphone_index c).

Definition set_selected_microphone_index (i : option Z) (c : t) : t :=
  Make (output_directory c) (motion_sensitivity c) (voice_detection_enabled c)
       (post_detection_record_time c) (use_simple_motion_detection c)
       (selected_camera_index c) i.

Definition set_motion_sensitivity (v : Z) (c : t) : t :=
  Make (output_directory c) v (voice_detection_enabled c)
       (post_detection_record_time c) (use_simple_motion_detection c)
       (selected_camera_index c) (selected_microphone_index c).

Definition set_voice_detection_enabled (b : bool) (c : t) : t :=
  Make (output_directory c) (motion_sensitivity c) b
       (post_detection_record_time c) (use_simple_motion_detection c)
       (selected_camera_index c) (selected_microphone_index c).
End Config.

(** ** Output sinks and the store that holds them *)

(** A [cv2.VideoWriter] object.  [isOpened] is what the constructor
    achieved; [write] stores a frame only in an opened, unreleased
    writer. *)
Module VideoWriter.
Record t : Type := Make {
  filename : string;
  fps : Z;
  frame_size : Z * Z;
  isOpened : bool;
  released : bool;
  written : list frame
}.

Definition write (f : frame) (w : t) : t :=
  if isOpened w && negb (released w)
  then Make (filename w) (fps w) (frame_size w) (isOpened w) (released w)
            (written w ++ [f])
  else w.

Definition release (w : t) : t :=
  Make (filename w) (fps w) (frame_size w) (isOpened w) true (written w).

(** The writer still holds its file: created and not yet released. *)
Definition live (w : t) : bool := negb (released w).
End VideoWriter.

(** A wave file as [AudioManager.stop_recording] writes it. *)
Module WaveFile.
Record t : Type := Make {
  filename : string;
  nchannels : Z;
  sampwidth : Z;
  framerate : Z;
  data : list Byte.byte
}.
End WaveFile.

(** Every [cv2.VideoWriter] created so far, in creation order (a
    reference to one is its position), and the wave files written. *)
Record World : Type := MkWorld {
  video_sinks : list VideoWriter.t;
  wave_files : list WaveFile.t
}.

Definition empty_world : World := MkWorld [] [].

(** [os.path.join(directory, name)] for a relative [name]. *)
Definition path_join (directory name : string) : string :=
  match directory with
  | EmptyString => name
  | _ =>
      if String.eqb (substring (String.length directory - 1) 1 directory) "/"
      then String.append directory name
      else String.append directory (String.append "/" name)
  end.

(** ** CameraManager *)

(** A [cv2.VideoCapture] object: the index it was created for and whether
    the device opened. *)
Module VideoCapture.
Record t : Type := Make { index : Z; isOpened : bool }.
End VideoCapture.

Module CameraManager.
Record t : Type := Make {
  camera : option VideoCapture.t;
  is_recording : bool;
  motion_detected : bool;
  frame_width : Z;
  frame_height : Z;
  motion_sensitivity : Z;
  output_directory : string;
  background_subtractor : list gray;
  prev_frame : option gray;
  selected_camera_index : Z;
  video_writer : option nat;
  current_recording_file : option string
}.

(** [CameraManager.__init__]. *)
Definition init (config : Config.t) (width height : Z) : t :=
  Make None false false width height
       (Config.motion_sensitivity config) (Config.output_directory config)
       [] None (Config.selected_camera_index config) None None.

Definition with_camera (v : option VideoCapture.t) (cm : t) : t :=
  Make v (is_recording cm) (motion_detected cm) (frame_width cm)
       (frame_height cm) (motion_sensitivity cm) (output_directory cm)
       (background_subtractor cm) (prev_frame cm) (selected_camera_index cm)
       (video_writer cm) (current_recording_file cm).

Definition with_is_recording (v : bool) (cm : t) : t :=
  Make (camera cm) v (motion_detected cm) (frame_width cm)
       (frame_height cm) (motion_sensitivity cm) (output_directory cm)
       (background_subtractor cm) (prev_frame cm) (selected_camera_index cm)
       (video_writer cm) (current_recording_file cm).

Definition with_motion_detected (v : bool) (cm : t) : t :=
  Make (camera cm) (is_recording cm) v (frame_width cm)
       (frame_height cm) (motion_sensitivity cm) (output_directory cm)
       (background_subtractor cm) (prev_frame cm) (selected_camera_index cm)
       (video_writer cm) (current_recording_file cm).

Definition with_background_subtractor (v : list gray) (cm : t) : t :=
  Make (camera cm) (is_recording cm) (motion_detected cm) (frame_width cm)
       (frame_height cm) (motion_sensitivity cm) (output_directory cm)
       v (prev_frame cm) (selected_camera_index cm)
       (video_writer cm) (current_recording_file cm).

Definition with_prev_frame (v : option gray) (cm : t) : t :=
  Make (camera cm) (is_recording cm) (motion_detected cm) (frame_width cm)
       (frame_height cm) (motion_sensitivity cm) (output_directory cm)
       (background_subtractor cm) v (selected_camera_index cm)
       (video_writer cm) (current_recording_file cm).

Definition with_selected_camera_index (v : Z) (cm : t) : t :=
  Make (camera cm) (is_recording cm) (motion_detected cm) (frame_width cm)
       (frame_height cm) (motion_sensitivity cm) (output_directory cm)
       (background_subtractor cm) (prev_frame cm) v
       (video_writer cm) (current_recording_file cm).

Definition with_video_writer (v : option nat) (cm : t) : t :=
  Make (camera cm) (is_recording cm) (motion_detected cm) (frame_width cm)
       (frame_height cm) (motion_sensitivity cm) (output_directory cm)
       (background_subtractor cm) (prev_frame cm) (selected_camera_index cm)
       v (current_recording_file cm).

Definition with_current_recording_file (v : option string) (cm : t) : t :=
  Make (camera cm) (is_recording cm) (motion_detected cm) (frame_width cm)
       (frame_height cm) (motion_sensitivity cm) (output_directory cm)
       (background_subtractor cm) (prev_frame cm) (selected_camera_index cm)
       (video_writer cm) v.

(** [open_camera]; [device_opens i] tells whether
    [cv2.VideoCapture(i).isOpened()]. *)
Definition open_camera (device_opens : Z -> bool) (cm : t) : bool * t :=
  let index := selected_camera_index cm in
  let index := if index <? 0 then 0 else index in
  let cam := VideoCapture.Make index (device_opens index) in
  let cam :=
    if negb (VideoCapture.isOpened cam)
    then VideoCapture.Make 0 (device_opens 0)
    else cam in
  (VideoCapture.isOpened cam, with_camera (Some cam) cm).

(** [detect_motion]: [None] when [cv2.absdiff] raises, otherwise the
    verdict and the manager with its reference state updated. *)
Definition detect_motion `{OpenCV} (config : Config.t) (cm : t)
    (frame : option frame) : option (bool * t) :=
  match frame with
  | None => Some (false, cm)
  | Some frame =>
      if Config.use_simple_motion_detection config then
        let gray := cvtColor_BGR2GRAY frame in
        let gray := GaussianBlur_21 gray in
        match prev_frame cm with
        | None => Some (false, with_prev_frame (Some gray) cm)
        | Some prev =>
            match absdiff prev gray with
            | None => None
            | Some frame_delta =>
                let thresh := threshold_binary frame_delta 25 255 in
                let cm' :=
                  with_prev_frame
                    (Some (addWeighted prev (7 # 10) gray (3 # 10) 0)) cm in
                let threshold := simple_threshold (motion_sensitivity cm) in
                Some (Qgtb (movement_percentage thresh) threshold, cm')
            end
        end
      else
        let gray := cvtColor_BGR2GRAY frame in
        let gray := GaussianBlur_21 gray in
        let fg_mask := mog2_mask (background_subtractor cm) gray in
        let cm' :=
          with_background_subtractor (background_subtractor cm ++ [gray]) cm in
        let thresh := threshold_binary fg_mask 25 255 in
        let thresh := dilate thresh 2 in
        Some (Qgtb (movement_percentage thresh)
                   (background_threshold (motion_sensitivity cm)), cm')
  end.

(** [start_recording()]: [stamp] is the formatted current time and
    [opened] what [cv2.VideoWriter] achieved; the source does not look
    at it. *)
Definition start_recording (stamp : string) (opened : bool)
    (w : World) (cm : t) : string * (World * t) :=
  let filename :=
    path_join (output_directory cm)
              (String.append "motion_" (String.append stamp ".mp4")) in
  let writer :=
    VideoWriter.Make filename 20 (frame_width cm, frame_height cm)
                     opened false [] in
  let ref := length (video_sinks w) in
  (filename,
   (MkWorld (video_sinks w ++ [writer]) (wave_files w),
    with_current_recording_file (Some filename)
      (with_is_recording true (with_video_writer (Some ref) cm)))).

(** [self.video_writer.<method>(...)] on the store. *)
Definition on_video_writer (f : VideoWriter.t -> VideoWriter.t)
    (w : World) (cm : t) : World :=
  match video_writer cm with
  | Some ref => MkWorld (alter f ref (video_sinks w)) (wave_files w)
  | None => w
  end.

Definition stop_recording (w : World) (cm : t)
    : option string * (World * t) :=
  if is_recording cm
  then (current_recording_file cm,
        (on_video_writer VideoWriter.release w cm, with_is_recording false cm))
  else (None, (w, cm)).

Definition record_frame (frame : option frame) (w : World) (cm : t) : World :=
  match frame with
  | Some f =>
      if is_recording cm then on_video_writer (VideoWriter.write f) w cm else w
  | None => w
  end.

(** [set_camera(camera_index)], with the shared [config] it writes. *)
Definition set_camera (device_opens : Z -> bool) (camera_index : Z)
    (config : Config.t) (w : World) (cm : t)
    : bool * (Config.t * World * t) :=
  let '(w, cm) :=
    if is_recording cm then snd (stop_recording w cm) else (w, cm) in
  let cm := with_selected_camera_index camera_index cm in
  let config := Config.set_selected_camera_index camera_index config in
  let '(ok, cm) := open_camera device_opens cm in
  (ok, (config, w, cm)).

Definition with_frame_size (width height : Z) (cm : t) : t :=
  Make (camera cm) (is_recording cm) (motion_detected cm) width height
       (motion_sensitivity cm) (output_directory cm)
       (background_subtractor cm) (prev_frame cm) (selected_camera_index cm)
       (video_writer cm) (current_recording_file cm).

Definition with_motion_sensitivity (v : Z) (cm : t) : t :=
  Make (camera cm) (is_recording cm) (motion_detected cm) (frame_width cm)
       (frame_height cm) v (output_directory cm)
       (background_subtractor cm) (prev_frame cm) (selected_camera_index cm)
       (video_writer cm) (current_recording_file cm).

(** The frame size [__init__] derives from [config["video_resolution"]]:
    640 x 480 unless the value is one of the two larger tiers. *)
Definition init_frame_size (video_resolution : string) : Z * Z :=
  let size := (640, 480) in
  if String.eqb video_resolution "720p" then (1280, 720)
  else if String.eqb video_resolution "1080p" then (1920, 1080)
  else if String.eqb video_resolution "480p" then (640, 480)
  else size.
End CameraManager.

(** ** AudioManager *)

(** [int.from_bytes(bs, byteorder='little', signed=True)]. *)
Definition from_bytes_little_unsigned (bs : list Byte.byte) : Z :=
  fold_right (fun b acc => Z.of_N (Byte.to_N b) + 256 * acc) 0 bs.

Definition from_bytes_little_signed (bs : list Byte.byte) : Z :=
  match bs with
  | [] => 0
  | _ =>
      let bits := 8 * Z.of_nat (length bs) in
      let u := from_bytes_little_unsigned bs in
      if u >=? 2 ^ (bits - 1) then u - 2 ^ bits else u
  end.

(** [[data[i:i+2] for i in range(0, len(data), 2)]]. *)
Fixpoint slices2 (data : list Byte.byte) : list (list Byte.byte) :=
  match data with
  | [] => []
  | [b] => [[b]]
  | b0 :: b1 :: rest => [b0; b1] :: slices2 rest
  end.

(** [sum(abs(int.from_bytes(...)) for ...)]. *)
Definition sum_abs_samples (data : list Byte.byte) : Z :=
  fold_right Z.add 0 (map (fun s => Z.abs (from_bytes_little_signed s)) (slices2 data)).

(** [sum(...) / (len(data)/2)], for a chunk that is not empty. *)
Definition energy (data : list Byte.byte) : Q :=
  inject_Z (sum_abs_samples data) / (inject_Z (Z.of_nat (length data)) / 2).

(** A PyAudio input stream. *)
Module Stream.
Record t : Type := Make { input_device_index : option Z; closed : bool }.
End Stream.

Module AudioManager.
Record t : Type := Make {
  voice_detection_enabled : bool;
  stream : option Stream.t;
  is_recording : bool;
  voice_detected : bool;
  output_directory : string;
  frames : list (list Byte.byte);
  selected_microphone_index : option Z;
  current_recording_file : option string
}.

(** [AudioManager.__init__]. *)
Definition init (config : Config.t) : t :=
  Make (Config.voice_detection_enabled config) None false false
       (Config.output_directory config) []
       (Config.selected_microphone_index config) None.

Definition with_stream (v : option Stream.t) (am : t) : t :=
  Make (voice_detection_enabled am) v (is_recording am) (voice_detected am)
       (output_directory am) (frames am) (selected_microphone_index am)
       (current_recording_file am).

Definition with_is_recording (v : bool) (am : t) : t :=
  Make (voice_detection_enabled am) (stream am) v (voice_detected am)
       (output_directory am) (frames am) (selected_microphone_index am)
       (current_recording_file am).

Definition with_voice_detected (v : bool) (am : t) : t :=
  Make (voice_detection_enabled am) (stream am) (is_recording am) v
       (output_directory am) (frames am) (selected_microphone_index am)
       (current_recording_file am).

Definition with_frames (v : list (list Byte.byte)) (am : t) : t :=
  Make (voice_detection_enabled am) (stream am) (is_recording am)
       (voice_detected am) (output_directory am) v
       (selected_microphone_index am) (current_recording_file am).

Definition with_selected_microphone_index (v : option Z) (am : t) : t :=
  Make (voice_detection_enabled am) (stream am) (is_recording am)
       (voice_detected am) (output_directory am) (frames am) v
       (current_recording_file am).

Definition with_current_recording_file (v : option string) (am : t) : t :=
  Make (voice_detection_enabled am) (stream am) (is_recording am)
       (voice_detected am) (output_directory am) (frames am)
       (selected_microphone_index am) v.

(** [start_stream]; [opens] tells whether [self.audio.open] succeeds.
    On failure the attribute keeps its previous value. *)
Definition start_stream (opens : bool) (am : t) : bool * t :=
  if opens
  then (true,
        with_stream (Some (Stream.Make (selected_microphone_index am) false)) am)
  else (false, am).

Definition stop_stream (am : t) : t :=
  match stream am with
  | Some s => with_stream (Some (Stream.Make (Stream.input_device_index s) true)) am
  | None => am
  end.

(** [detect_voice]; [read] is what [self.stream.read(4096, ...)]
    yields, [None] when it raises.  Every exception of the body,
    the division by zero of an empty chunk included, is caught and
    answered [False]. *)
Definition detect_voice (am : t) (read : option (list Byte.byte)) : bool :=
  if negb (voice_detection_enabled am) || negb (bool_decide (is_Some (stream am)))
  then false
  else
    match read with
    | None => false
    | Some [] => false
    | Some data => Qgtb (energy data) 1500
    end.

Definition start_recording (stamp : string) (am : t) : string * t :=
  let filename :=
    path_join (output_directory am)
              (String.append "audio_" (String.append stamp ".wav")) in
  (filename,
   with_current_recording_file (Some filename)
     (with_is_recording true (with_frames [] am))).

Definition stop_recording (w : World) (am : t)
    : option string * (World * t) :=
  if is_recording am
  then
    let wf :=
      WaveFile.Make (default EmptyString (current_recording_file am))
                    1 2 16000 (concat (frames am)) in
    (current_recording_file am,
     (MkWorld (video_sinks w) (wave_files w ++ [wf]),
      with_frames [] (with_is_recording false am)))
  else (None, (w, am)).

(** [record_audio]; [data] is what [self.stream.read(1024, ...)]
    returns. *)
Definition record_audio (data : list Byte.byte) (am : t) : t :=
  if is_recording am && bool_decide (is_Some (stream am))
  then with_frames (frames am ++ [data]) am
  else am.

(** [set_microphone(mic_index)], with the shared [config] it writes. *)
Definition set_microphone (opens : bool) (mic_index : option Z)
    (config : Config.t) (w : World) (am : t)
    : bool * (Config.t * World * t) :=
  let '(w, am) :=
    if is_recording am then snd (stop_recording w am) else (w, am) in
  let am := match stream am with Some _ => stop_stream am | None => am end in
  let am := with_selected_microphone_index mic_index am in
  let config := Config.set_selected_microphone_index mic_index config in
  let '(ok, am) := start_stream opens am in
  (ok, (config, w, am)).

Definition with_voice_detection_enabled (v : bool) (am : t) : t :=
  Make v (stream am) (is_recording am) (voice_detected am)
       (output_directory am) (frames am) (selected_microphone_index am)
       (current_recording_file am).
End AudioManager.

(** ** SecurityApp: the controller *)

(** What one run of [update_preview] obtains from outside: the result of
    [camera.read()], the successive readings of [time.time()], the audio
    read by [detect_voice] ([None] when the read raises) and by
    [record_audio], the formatted time stamps of the two file names and
    whether a video writer created on this tick opens. *)
Record TickEnv : Type := MkTickEnv {
  camera_read : bool * option frame;
  time_check : Q;
  time_motion : Q;
  time_voice : Q;
  time_linger : Q;
  voice_read : option (list Byte.byte);
  audio_read : list Byte.byte;
  video_stamp : string;
  audio_stamp : string;
  writer_opened : bool
}.

Module SecurityApp.
Record t : Type := Make {
  config : Config.t;
  camera_manager : CameraManager.t;
  audio_manager : AudioManager.t;
  monitoring : bool;
  last_motion_time : Q;
  last_voice_time : Q;
  last_voice_check_time : Q
}.

(** [SecurityApp.__init__], as far as the controller goes: both
    managers created on the shared configuration, camera and stream
    opened, monitoring off and the three time stamps at [0]. *)
Definition init (config : Config.t) (width height : Z)
    (device_opens : Z -> bool) (stream_opens : bool) : t :=
  Make config
       (snd (CameraManager.open_camera device_opens
               (CameraManager.init config width height)))
       (snd (AudioManager.start_stream stream_opens (AudioManager.init config)))
       false 0 0 0.

Definition with_config (v : Config.t) (a : t) : t :=
  Make v (camera_manager a) (audio_manager a) (monitoring a)
       (last_motion_time a) (last_voice_time a) (last_voice_check_time a).

Definition with_camera_manager (v : CameraManager.t) (a : t) : t :=
  Make (config a) v (audio_manager a) (monitoring a)
       (last_motion_time a) (last_voice_time a) (last_voice_check_time a).

Definition with_audio_manager (v : AudioManager.t) (a : t) : t :=
  Make (config a) (camera_manager a) v (monitoring a)
       (last_motion_time a) (last_voice_time a) (last_voice_check_time a).

Definition with_monitoring (v : bool) (a : t) : t :=
  Make (config a) (camera_manager a) (audio_manager a) v
       (last_motion_time a) (last_voice_time a) (last_voice_check_time a).

Definition with_last_motion_time (v : Q) (a : t) : t :=
  Make (config a) (camera_manager a) (audio_manager a) (monitoring a)
       v (last_voice_time a) (last_voice_check_time a).

Definition with_last_voice_time (v : Q) (a : t) : t :=
  Make (config a) (camera_manager a) (audio_manager a) (monitoring a)
       (last_motion_time a) v (last_voice_check_time a).

Definition with_last_voice_check_time (v : Q) (a : t) : t :=
  Make (config a) (camera_manager a) (audio_manager a) (monitoring a)
       (last_motion_time a) (last_voice_time a) v.

(** The two detector calls at the head of the monitoring branch:
    [motion_detected], [voice_detected] and the application with the
    detector state and [last_voice_check_time] they leave.  [None] when
    [detect_motion] raises. *)
Definition run_detectors `{OpenCV} (env : TickEnv) (frame : frame) (a : t)
    : option (bool * bool * t) :=
  match CameraManager.detect_motion (config a) (camera_manager a) (Some frame) with
  | None => None
  | Some (motion_detected, cm) =>
      let a := with_camera_manager cm a in
      let current_time := time_check env in
      if Qgtb (current_time - last_voice_check_time a) (3 # 10)
      then Some (motion_detected,
                 AudioManager.detect_voice (audio_manager a) (voice_read env),
                 with_last_voice_check_time current_time a)
      else Some (motion_detected, false, a)
  end.

(** "Update indicators": the time stamps and the sticky flags.  The
    colour of the two indicator labels, the only thing the [elif]
    branches change, is not part of the state. *)
Definition update_indicators (env : TickEnv)
    (motion_detected voice_detected : bool) (a : t) : t :=
  let a :=
    if motion_detected
    then with_camera_manager
           (CameraManager.with_motion_detected true (camera_manager a))
           (with_last_motion_time (time_motion env) a)
    else a in
  if voice_detected
  then with_audio_manager
         (AudioManager.with_voice_detected true (audio_manager a))
         (with_last_voice_time (time_voice env) a)
  else a.

(** "Handle recording". *)
Definition handle_recording (env : TickEnv)
    (motion_detected voice_detected : bool) (a : t) (w : World) : t * World :=
  if (motion_detected || voice_detected)
     && negb (CameraManager.is_recording (camera_manager a))
  then
    let '(_, (w, cm)) :=
      CameraManager.start_recording (video_stamp env) (writer_opened env)
                                    w (camera_manager a) in
    let '(_, am) :=
      AudioManager.start_recording (audio_stamp env) (audio_manager a) in
    (with_audio_manager am (with_camera_manager cm a), w)
  else (a, w).

(** The test of "Check if we should continue recording". *)
Definition should_continue (env : TickEnv) (a : t) : bool :=
  CameraManager.motion_detected (camera_manager a)
  || AudioManager.voice_detected (audio_manager a)
  || Qltb (time_linger env - py_max (last_motion_time a) (last_voice_time a))
          (inject_Z (Config.post_detection_record_time (config a))).

(** "Update recording state". *)
Definition update_recording_state (env : TickEnv) (frame : frame)
    (a : t) (w : World) : t * World :=
  if CameraManager.is_recording (camera_manager a) then
    if should_continue env a then
      let w := CameraManager.record_frame (Some frame) w (camera_manager a) in
      let am := AudioManager.record_audio (audio_read env) (audio_manager a) in
      let cm := CameraManager.with_motion_detected false (camera_manager a) in
      let am := AudioManager.with_voice_detected false am in
      (with_audio_manager am (with_camera_manager cm a), w)
    else
      let '(_, (w, cm)) := CameraManager.stop_recording w (camera_manager a) in
      let '(_, (w, am)) := AudioManager.stop_recording w (audio_manager a) in
      (with_audio_manager am (with_camera_manager cm a), w)
  else (a, w).

(** [update_preview]: one tick.  [None] when an exception leaves it. *)
Definition update_preview `{OpenCV} (env : TickEnv) (a : t) (w : World)
    : option (t * World) :=
  match CameraManager.camera (camera_manager a) with
  | None => Some (a, w)
  | Some _ =>
      match camera_read env with
      | (true, Some frame) =>
          if monitoring a then
            match run_detectors env frame a with
            | None => None
            | Some (motion_detected, voice_detected, a) =>
                let a := update_indicators env motion_detected voice_detected a in
                let '(a, w) :=
                  handle_recording env motion_detected voice_detected a w in
                Some (update_recording_state env frame a w)
            end
          else Some (a, w)
      | _ => Some (a, w)
      end
  end.

(** [toggle_monitoring]. *)
Definition toggle_monitoring (a : t) (w : World) : t * World :=
  let a := with_monitoring (negb (monitoring a)) a in
  if monitoring a then (a, w)
  else
    if CameraManager.is_recording (camera_manager a) then
      let '(_, (w, cm)) := CameraManager.stop_recording w (camera_manager a) in
      let '(_, (w, am)) := AudioManager.stop_recording w (audio_manager a) in
      (with_audio_manager am (with_camera_manager cm a), w)
    else (a, w).

(** [update_motion_method]; [use_simple] is the value of the radio
    button. *)
Definition update_motion_method (use_simple : bool) (a : t) : t :=
  let a := with_config (Config.set_use_simple_motion_detection use_simple (config a)) a in
  with_camera_manager (CameraManager.with_prev_frame None (camera_manager a)) a.

(** [change_camera], once the selected name has been resolved to the
    index [camera_index]. *)
Definition change_camera (device_opens : Z -> bool) (camera_index : Z)
    (a : t) (w : World) : bool * (t * World) :=
  let '(ok, (cfg, w, cm)) :=
    CameraManager.set_camera device_opens camera_index (config a) w
                             (camera_manager a) in
  (ok, (with_camera_manager cm (with_config cfg a), w)).

(** [change_microphone], likewise. *)
Definition change_microphone (opens : bool) (mic_index : option Z)
    (a : t) (w : World) : bool * (t * World) :=
  let '(ok, (cfg, w, am)) :=
    AudioManager.set_microphone opens mic_index (config a) w
                                (audio_manager a) in
  (ok, (with_audio_manager am (with_config cfg a), w)).

(** [int(float(value))] on the value a scale hands over: truncation
    towards zero. *)
Definition py_int (value : Q) : Z := Z.quot (Qnum value) (Z.pos (Qden value)).

(** [update_motion_sensitivity]. *)
Definition update_motion_sensitivity (value : Q) (a : t) : t :=
  let sensitivity := py_int value in
  let a :=
    with_camera_manager
      (CameraManager.with_motion_sensitivity sensitivity (camera_manager a)) a in
  with_config (Config.set_motion_sensitivity sensitivity (config a)) a.

(** [toggle_voice_detection]; [enabled] is the value of the check box. *)
Definition toggle_voice_detection (enabled : bool) (a : t) : t :=
  let a :=
    with_audio_manager
      (AudioManager.with_voice_detection_enabled enabled (audio_manager a)) a in
  with_config (Config.set_voice_detection_enabled enabled (config a)) a.

(** The value [__init__] leaves in [config["video_resolution"]]: the
    stored one when it is one of the three tiers, ["480p"] when the key
    is missing ([None]) or holds anything else. *)
Definition sanitize_video_resolution (stored : option string) : string :=
  match stored with
  | Some r =>
      if String.eqb r "480p" || String.eqb r "720p" || String.eqb r "1080p"
      then r else "480p"
  | None => "480p"
  end.

(** The frame size [update_video_quality] sets for a resolution. *)
Definition quality_frame_size (resolution : string) : Z * Z :=
  if String.eqb resolution "480p" then (640, 480)
  else if String.eqb resolution "720p" then (1280, 720)
  else (1920, 1080).

(** [update_video_quality]; [resolution] is the value of the radio
    buttons.  The key [video_resolution] it also writes is not among the
    keys of [Config.t]. *)
Definition update_video_quality (device_opens : Z -> bool) (resolution : string)
    (a : t) (w : World) : t * World :=
  let '(width, height) := quality_frame_size resolution in
  let cm := CameraManager.with_frame_size width height (camera_manager a) in
  let current_camera := CameraManager.selected_camera_index cm in
  let '(_, (cfg, w, cm)) :=
    CameraManager.set_camera device_opens current_camera (config a) w cm in
  (with_camera_manager cm (with_config cfg a), w).
End SecurityApp.

(** ** What the specification calls things *)

(** The number of pixels whose absolute difference from the reference
    exceeds the cut-off 25, and their percentage among all pixels. *)
Definition changed_pixels (reference img : gray) : nat :=
  length (filter (fun p => 25 < Z.abs (fst p - snd p))
                 (zip (pixels reference) (pixels img))).

Definition changed_percentage (reference img : gray) : Q :=
  100 * inject_Z (Z.of_nat (changed_pixels reference img))
  / inject_Z (total_pixels img).

(** The samples of a chunk, each consecutive byte pair read as one
    little-endian signed 16-bit integer, and the mean of their absolute
    values. *)
Definition int16_le (lo hi : Byte.byte) : Z :=
  let u := Z.of_N (Byte.to_N lo) + 256 * Z.of_N (Byte.to_N hi) in
  if u <? 32768 then u else u - 65536.

Fixpoint samples16 (data : list Byte.byte) : list Z :=
  match data with
  | lo :: hi :: rest => int16_le lo hi :: samples16 rest
  | _ => []
  end.

Definition mean_magnitude (data : list Byte.byte) : Q :=
  inject_Z (fold_right Z.add 0 (map Z.abs (samples16 data)))
  / inject_Z (Z.of_nat (length (samples16 data))).

(** An instance of the OpenCV parameters to run the model on concrete
    frames: the blue channel as intensity, no blur, the blend rounded
    down, the difference from the last frame as foreground mask, no
    dilation. *)
Definition sample_blend (a : gray) (alpha : Q) (b : gray) (beta gamma : Q) : gray :=
  Gray (shape0 a) (shape1 a)
       (zip_with (fun x y => saturate (Qfloor (alpha * inject_Z x + beta * inject_Z y + gamma)))
                 (pixels a) (pixels b)).

Definition sample_mask (history : list gray) (img : gray) : gray :=
  match last history with
  | Some prev => default img (absdiff prev img)
  | None => Gray (shape0 img) (shape1 img) (map (fun _ => 0) (pixels img))
  end.

Definition sample_cv : OpenCV := {|
  cvtColor_BGR2GRAY f :=
    Gray (frame_shape0 f) (frame_shape1 f) (map (fun p => fst (fst p)) (bgr f));
  GaussianBlur_21 g := g;
  addWeighted := sample_blend;
  mog2_mask := sample_mask;
  dilate g _ := g
|}.

(** A [rows] x [cols] frame of one colour, with the first [k] pixels of
    another. *)
Definition flat_frame (rows cols : nat) (k : nat) (v v' : Z) : frame :=
  Frame rows cols
        (replicate k (v', v', v') ++ replicate (rows * cols - k) (v, v, v)).

(** ** Sample states *)

Definition sample_config : Config.t := Config.default "recordings".

Definition sample_camera : CameraManager.t :=
  CameraManager.init sample_config 640 480.

(** A 10 x 20 reference of intensity 0, and frames in which 5 and 3 of
    the 200 pixels have moved to intensity 100. *)
Definition dark_reference : gray := Gray 10 20 (replicate 200 0).

Definition sample_camera_with_reference : CameraManager.t :=
  CameraManager.with_prev_frame (Some dark_reference) sample_camera.


(** An audio manager with voice detection on and its stream open, and
    chunks of two samples: 1600 and -1600; 1400 and -1400; 1500 twice. *)
Definition sample_audio : AudioManager.t :=
  snd (AudioManager.start_stream true (AudioManager.init sample_config)).

Definition chunk_1600 : list Byte.byte := [Byte.x40; Byte.x06; Byte.xc0; Byte.xf9].
Definition chunk_1400 : list Byte.byte := [Byte.x78; Byte.x05; Byte.x88; Byte.xfa].
Definition chunk_1500 : list Byte.byte := [Byte.xdc; Byte.x05; Byte.xdc; Byte.x05].

(** ** Runs of the tick loop *)

(** A sequence of ticks, one environment each; [None] as soon as one of
    them raises. *)
Fixpoint run `{OpenCV} (envs : list TickEnv) (a : SecurityApp.t) (w : World)
    : option (SecurityApp.t * World) :=
  match envs with
  | [] => Some (a, w)
  | env :: envs =>
      match SecurityApp.update_preview env a w with
      | Some (a', w') => run envs a' w'
      | None => None
      end
  end.

(** What the two detectors report on a tick: [Some (motion, voice)] when
    the tick gets as far as running them, [None] when it is skipped (no
    camera, no frame, monitoring off) or [detect_motion] raises. *)
Definition verdicts `{OpenCV} (env : TickEnv) (a : SecurityApp.t)
    : option (bool * bool) :=
  match CameraManager.camera (SecurityApp.camera_manager a), camera_read env with
  | Some _, (true, Some frame) =>
      if SecurityApp.monitoring a
      then option_map fst (SecurityApp.run_detectors env frame a)
      else None
  | _, _ => None
  end.

Definition motion_reported `{OpenCV} (env : TickEnv) (a : SecurityApp.t) : bool :=
  match verdicts env a with Some (m, _) => m | None => false end.

Definition voice_reported `{OpenCV} (env : TickEnv) (a : SecurityApp.t) : bool :=
  match verdicts env a with Some (_, v) => v | None => false end.

(** The clock readings of a sequence of ticks never go back, starting
    from [t0]; [clock_end] is the last reading. *)
Fixpoint clock_monotone (t0 : Q) (envs : list TickEnv) : Prop :=
  match envs with
  | [] => True
  | env :: envs =>
      (t0 <= time_check env)%Q
      /\ (time_check env <= time_motion env)%Q
      /\ (time_motion env <= time_voice env)%Q
      /\ (time_voice env <= time_linger env)%Q
      /\ clock_monotone (time_linger env) envs
  end.

Fixpoint clock_end (t0 : Q) (envs : list TickEnv) : Q :=
  match envs with
  | [] => t0
  | env :: envs => clock_end (time_linger env) envs
  end.

(** The states of the tick loop: the application as [__init__] leaves
    it, then any number of ticks and of presses of the monitoring
    button. *)
Inductive step `{OpenCV} : SecurityApp.t * World -> SecurityApp.t * World -> Prop :=
| step_tick (env : TickEnv) (a a' : SecurityApp.t) (w w' : World) :
    SecurityApp.update_preview env a w = Some (a', w') ->
    step (a, w) (a', w')
| step_toggle (a : SecurityApp.t) (w : World) :
    step (a, w) (SecurityApp.toggle_monitoring a w).

Inductive reachable `{OpenCV} : SecurityApp.t * World -> Prop :=
| reachable_init (config : Config.t) (width height : Z)
    (device_opens : Z -> bool) (stream_opens : bool) :
    reachable (SecurityApp.init config width height device_opens stream_opens,
               empty_world)
| reachable_step (s s' : SecurityApp.t * World) :
    reachable s -> step s s' -> reachable s'.

(** A recording session: the camera manager holds a video writer that
    has not been released, and the audio manager is accumulating its
    frame buffer.  [session_open] asks in addition that the writer did
    open its file. *)
Definition session_exists (s : SecurityApp.t * World) : Prop :=
  exists (ref : nat) (writer : VideoWriter.t),
    CameraManager.video_writer (SecurityApp.camera_manager (fst s)) = Some ref
    /\ video_sinks (snd s) !! ref = Some writer
    /\ VideoWriter.live writer = true
    /\ AudioManager.is_recording (SecurityApp.audio_manager (fst s)) = true.

Definition session_open (s : SecurityApp.t * World) : Prop :=
  exists (ref : nat) (writer : VideoWriter.t),
    CameraManager.video_writer (SecurityApp.camera_manager (fst s)) = Some ref
    /\ video_sinks (snd s) !! ref = Some writer
    /\ VideoWriter.live writer = true
    /\ VideoWriter.isOpened writer = true
    /\ AudioManager.is_recording (SecurityApp.audio_manager (fst s)) = true.

(** The video writers of the store that still hold their file. *)
Definition live_writers (w : World) : list VideoWriter.t :=
  filter (fun x => VideoWriter.live x = true) (video_sinks w).

(** The controller is in the Recording state. *)
Definition recording (s : SecurityApp.t * World) : bool :=
  CameraManager.is_recording (SecurityApp.camera_manager (fst s)).

(** ** The controller's invariant *)

(** The controller's invariant: the two managers agree on whether they
    record, the sticky detection flags are down between ticks, and the
    store holds exactly one unreleased writer, the last one created and
    the one the camera manager refers to, while recording and none
    otherwise. *)
Definition writers_ok (recording : bool) (ref : option nat)
    (sinks : list VideoWriter.t) : Prop :=
  if recording
  then exists (pre : list VideoWriter.t) (writer : VideoWriter.t),
         sinks = pre ++ [writer]
         /\ ref = Some (length pre)
         /\ VideoWriter.released writer = false
         /\ Forall (fun x => VideoWriter.released x = true) pre
  else Forall (fun x => VideoWriter.released x = true) sinks.

Definition controller_inv (s : SecurityApp.t * World) : Prop :=
  let cm := SecurityApp.camera_manager (fst s) in
  let am := SecurityApp.audio_manager (fst s) in
  AudioManager.is_recording am = CameraManager.is_recording cm
  /\ CameraManager.motion_detected cm = false
  /\ AudioManager.voice_detected am = false
  /\ writers_ok (CameraManager.is_recording cm) (CameraManager.video_writer cm)
                (video_sinks (snd s)).

(** [now - max(lastMotionAt, lastVoiceAt) < lingerSeconds], on the time
    stamps and configuration of [a] and the clock reading of the test. *)
Definition within_linger (env : TickEnv) (a : SecurityApp.t) : bool :=
  Qltb (time_linger env
        - py_max (SecurityApp.last_motion_time a) (SecurityApp.last_voice_time a))
       (inject_Z (Config.post_detection_record_time (SecurityApp.config a))).

(** ** A sample run *)

(** The application after [__init__] with every device opening, then
    with monitoring switched on. *)
Definition sample_app0 : SecurityApp.t :=
  SecurityApp.init sample_config 640 480 (fun _ => true) true.

Definition sample_on : SecurityApp.t * World :=
  SecurityApp.toggle_monitoring sample_app0 empty_world.

Definition dark_frame : frame := flat_frame 10 20 0 0 100.

Definition chunk_quiet : list Byte.byte := [Byte.x00; Byte.x00; Byte.x00; Byte.x00].

(** A tick at clock reading [t] that gets the frame [f] and the audio
    [chunk], on which a video writer, if one is created, opens or not
    according to [opened]. *)
Definition tick_at (t : Q) (f : frame) (chunk : list Byte.byte) (opened : bool)
    : TickEnv :=
  MkTickEnv (true, Some f) t t t t (Some chunk) chunk
            "20240101_000000" "20240101_000000" opened.

(** A tick on which the camera yields nothing. *)
Definition tick_without_frame (t : Q) : TickEnv :=
  MkTickEnv (false, None) t t t t (Some chunk_quiet) chunk_quiet
            "20240101_000000" "20240101_000000" true.

(** Voice at [t = 1], then silence at [t = 1 + 9.9] and [t = 1 + 10.1]. *)
Definition env_event : TickEnv := tick_at 1 dark_frame chunk_1600 true.
Definition env_quiet_9_9 : TickEnv := tick_at (109 # 10) dark_frame chunk_quiet true.
Definition env_quiet_10_1 : TickEnv := tick_at (111 # 10) dark_frame chunk_quiet true.

(** The same event on a tick whose video writer fails to open. *)
Definition env_event_unopened : TickEnv := tick_at 1 dark_frame chunk_1600 false.

Definition after (envs : list TickEnv) : SecurityApp.t * World :=
  default sample_on (run (H := sample_cv) envs (fst sample_on) (snd sample_on)).

Definition sample_recording : SecurityApp.t * World := after [env_event].
Definition sample_lingering : SecurityApp.t * World :=
  after [env_event; env_quiet_9_9].
Definition sample_stopped : SecurityApp.t * World :=
  after [env_event; env_quiet_9_9; env_quiet_10_1].
Definition sample_unopened : SecurityApp.t * World := after [env_event_unopened].

(** The sample session after the camera, respectively the microphone,
    has been switched while it was open. *)
Definition sample_camera_switched : SecurityApp.t * World :=
  snd (SecurityApp.change_camera (fun _ => true) 1
         (fst sample_recording) (snd sample_recording)).

Definition sample_microphone_switched : SecurityApp.t * World :=
  snd (SecurityApp.change_microphone true (Some 1)
         (fst sample_recording) (snd sample_recording)).

(** A later voice event; the chunk [record_audio] reads on that tick is
    a quiet one.  And the state it leaves when it comes after the camera
    switch. *)
Definition env_event_later : TickEnv :=
  MkTickEnv (true, Some dark_frame) 2 2 2 2 (Some chunk_1600) chunk_quiet
            "20240101_000002" "20240101_000002" true.

Definition sample_camera_switched_restarted : SecurityApp.t * World :=
  default sample_camera_switched
    (SecurityApp.update_preview (H := sample_cv) env_event_later
       (fst sample_camera_switched) (snd sample_camera_switched)).

(** An application in background-subtraction mode whose subtractor has
    absorbed one frame. *)
Definition sample_background : SecurityApp.t :=
  SecurityApp.with_camera_manager
    (CameraManager.with_background_subtractor [dark_reference]
       (SecurityApp.camera_manager sample_app0))
    (SecurityApp.with_config
       (Config.set_use_simple_motion_detection false sample_config) sample_app0).

(** ** Sessions over several ticks *)





(** What the tick loop keeps besides [controller_inv]: recording only
    while monitoring, a capture object always held, and one wave file per
    released video writer. *)
Definition session_books (s : SecurityApp.t * World) : Prop :=
  (recording s = true -> SecurityApp.monitoring (fst s) = true)
  /\ is_Some (CameraManager.camera (SecurityApp.camera_manager (fst s)))
  /\ length (video_sinks (snd s))
     = (length (wave_files (snd s)) + (if recording s then 1 else 0))%nat.


(** ** ConfigManager *)

(** The values [json.load] produces. *)
#[warnings="-register-all"] Inductive json : Type :=
| JNull
| JBool (b : bool)
| JInt (n : Z)
| JFloat (q : Q)
| JString (s : string)
| JArray (items : list json)
| JObject (members : list (string * json)).

Module ConfigManager.
(** [create_default_config]: the dictionary it returns; [documents] is
    the expanded path of the output directory. *)
Definition create_default_config (documents : string) : gmap string json :=
  list_to_map
    [("output_directory", JString documents);
     ("motion_sensitivity", JInt 20);
     ("voice_detection_enabled", JBool true);
     ("post_detection_record_time", JInt 10);
     ("video_resolution", JString "480p");
     ("notifications_enabled", JBool true);
     ("dark_mode", JBool true);
     ("use_simple_motion_detection", JBool true);
     ("selected_camera_index", JInt 0);
     ("selected_microphone_index", JNull)]%string.

(** [if key not in config: config[key] = value]. *)
Definition setdefault (key : string) (value : json) (config : gmap string json)
    : gmap string json :=
  match config !! key with
  | Some _ => config
  | None => <[key := value]> config
  end.

(** [load_config]; [file] is the dictionary read from the configuration
    file, [None] when opening or parsing it raises, in which case the
    bare [except] answers with the default configuration. *)
Definition load_config (documents : string) (file : option (gmap string json))
    : gmap string json :=
  match file with
  | Some config =>
      let config := setdefault "use_simple_motion_detection" (JBool true) config in
      let config := setdefault "video_resolution" (JString "480p") config in
      let config := setdefault "selected_microphone_index" JNull config in
      config
  | None => create_default_config documents
  end.
End ConfigManager.

(** Python's truth value of a JSON value. *)
Definition truthy (v : json) : bool :=
  match v with
  | JNull => false
  | JBool b => b
  | JInt n => negb (n =? 0)
  | JFloat q => negb (Qeq_bool q 0)
  | JString s => negb (String.eqb s "")
  | JArray items => match items with [] => false | _ => true end
  | JObject members => match members with [] => false | _ => true end
  end.

(** The configuration as the managers read it, for a dictionary whose
    values have the types the program computes with: subscripted keys
    must be present ([None] stands for the [KeyError], or for a value of
    another type), keys read with [get] have their defaults. *)
Definition config_of_dict (d : gmap string json) : option Config.t :=
  match d !! "output_directory"%string, d !! "motion_sensitivity"%string,
        d !! "voice_detection_enabled"%string,
        d !! "post_detection_record_time"%string with
  | Some (JString dir), Some (JInt sensitivity), Some voice, Some (JInt linger) =>
      let simple :=
        match d !! "use_simple_motion_detection"%string with
        | Some v => truthy v
        | None => true
        end in
      match default (JInt 0) (d !! "selected_camera_index"%string),
            default JNull (d !! "selected_microphone_index"%string) with
      | JInt camera, JNull =>
          Some (Config.Make dir sensitivity (truthy voice) linger simple camera None)
      | JInt camera, JInt mic =>
          Some (Config.Make dir sensitivity (truthy voice) linger simple camera
                            (Some mic))
      | _, _ => None
      end
  | _, _, _, _ => None
  end.

(** ** Samples for the further properties *)

(** A 2 x 2 reference of intensity 10 and a frame of intensity 12; the
    sample camera manager holding that reference, and the same with the
    sensitivity at 31. *)
Definition tiny_reference : gray := Gray 2 2 [10; 10; 10; 10].
Definition tiny_frame : frame := flat_frame 2 2 0 12 0.

Definition sample_camera_tiny : CameraManager.t :=
  CameraManager.with_prev_frame (Some tiny_reference) sample_camera.

Definition sample_camera_sensitive : CameraManager.t :=
  CameraManager.with_motion_sensitivity 31 sample_camera_tiny.

(** A frame of another size than the sample run's, and a tick that
    delivers it. *)
Definition small_frame : frame := flat_frame 5 5 0 0 100.


(** The sample application with voice detection switched off. *)
Definition sample_voice_off : SecurityApp.t :=
  SecurityApp.toggle_voice_detection false (fst sample_on).

(** The dictionary of a configuration file that holds one key only. *)
Definition old_config_file : gmap string json :=
  {[ "motion_sensitivity"%string := JInt 15 ]}.

(** ** Rational comparisons *)

Lemma Qgtb_true (x y : Q) : Qgtb x y = true <-> (y < x)%Q.
Proof.
  unfold Qgtb. rewrite negb_true_iff.
  split; intros Hxy.
  - apply Qnot_le_lt. intros Hle. apply Qle_bool_iff in Hle. congruence.
  - destruct (Qle_bool x y) eqn:E; [|reflexivity].
    apply Qle_bool_iff in E. exfalso. exact (Qlt_not_le _ _ Hxy E).
Qed.

Lemma Qgtb_false (x y : Q) : Qgtb x y = false <-> (x <= y)%Q.
Proof.
  unfold Qgtb. rewrite negb_false_iff. apply Qle_bool_iff.
Qed.

Lemma Qltb_true (x y : Q) : Qltb x y = true <-> (x < y)%Q.
Proof. exact (Qgtb_true y x). Qed.

Lemma Qltb_false (x y : Q) : Qltb x y = false <-> (y <= x)%Q.
Proof. exact (Qgtb_false y x). Qed.

Lemma Qgtb_compat (x x' y y' : Q) :
  (x == x')%Q -> (y == y')%Q -> Qgtb x y = Qgtb x' y'.
Proof.
  intros Hx Hy.
  destruct (Qgtb x' y') eqn:E.
  - apply Qgtb_true. apply Qgtb_true in E. rewrite Hx, Hy. exact E.
  - apply Qgtb_false. apply Qgtb_false in E. rewrite Hx, Hy. exact E.
Qed.

Lemma py_max_le_l (a b : Q) : (a <= py_max a b)%Q.
Proof.
  unfold py_max. destruct (Qgtb b a) eqn:E.
  - apply Qgtb_true in E. apply Qlt_le_weak. exact E.
  - apply Qle_refl.
Qed.

Lemma py_max_le_r (a b : Q) : (b <= py_max a b)%Q.
Proof.
  unfold py_max. destruct (Qgtb b a) eqn:E.
  - apply Qle_refl.
  - apply Qgtb_false in E. exact E.
Qed.

Lemma py_max_cases (a b : Q) : py_max a b = a \/ py_max a b = b.
Proof. unfold py_max. destruct (Qgtb b a); auto. Qed.

(** ** The FastDifference threshold *)

Lemma simple_threshold_eq (s : Z) : (simple_threshold s == (30 - s) # 5)%Q.
Proof.
  unfold simple_threshold, Qeq, Qdiv, Qmult, Qinv, inject_Z. simpl. lia.
Qed.

Lemma simple_threshold_lt (s1 s2 : Z) :
  s1 < s2 -> (simple_threshold s2 < simple_threshold s1)%Q.
Proof.
  intros Hlt. rewrite !simple_threshold_eq. unfold Qlt. simpl. lia.
Qed.

Lemma simple_threshold_le (s1 s2 : Z) :
  s1 <= s2 -> (simple_threshold s2 <= simple_threshold s1)%Q.
Proof.
  intros Hle. rewrite !simple_threshold_eq. unfold Qle. simpl. lia.
Qed.

(** C9, as the code has it: over the sensitivities 1..25 the
    FastDifference threshold [(30 - sensitivity) / 5] is strictly
    decreasing in the sensitivity, and its values run from 1.0 (at 25) up
    to 5.8 (at 1). *)
Theorem simple_threshold_decreasing_from_5_8_to_1 (s1 s2 : Z) :
  1 <= s1 -> s1 < s2 -> s2 <= 25 ->
  (simple_threshold s2 < simple_threshold s1)%Q
  /\ (simple_threshold 25 <= simple_threshold s2)%Q
  /\ (simple_threshold s1 <= simple_threshold 1)%Q
  /\ (simple_threshold 25 == 1)%Q
  /\ (simple_threshold 1 == 58 # 10)%Q.
Proof.
  intros H1 H12 H25. repeat split.
  - apply simple_threshold_lt; assumption.
  - apply simple_threshold_le; assumption.
  - apply simple_threshold_le; assumption.
Qed.

Lemma simple_threshold_decreasing_witness :
  (simple_threshold 20 < simple_threshold 10)%Q
  /\ (simple_threshold 25 <= simple_threshold 20)%Q
  /\ (simple_threshold 10 <= simple_threshold 1)%Q
  /\ (simple_threshold 25 == 1)%Q
  /\ (simple_threshold 1 == 58 # 10)%Q.
Proof.
  apply (simple_threshold_decreasing_from_5_8_to_1 10 20); lia.
Defined.

(** C9 as stated puts the low end of the range near 0.2 at sensitivity
    25; the code gives 1.0 there, and nothing below 1.0 anywhere in
    1..25. *)
Lemma simple_threshold_at_25_is_not_0_2 :
  ~ (simple_threshold 25 == 2 # 10)%Q /\ (simple_threshold 25 == 1)%Q.
Proof.
  split; [intros H; discriminate H | reflexivity].
Qed.

(** ** FastDifference classification *)

Lemma saturate_gt_25 (v : Z) : 0 <= v -> (saturate v >? 25) = (v >? 25).
Proof.
  intros Hv. unfold saturate.
  destruct (Z.gtb_spec v 25), (Z.gtb_spec (Z.max 0 (Z.min 255 v)) 25);
    try reflexivity; lia.
Qed.

Lemma count_thresholded_difference (l1 l2 : list Z) :
  length (filter (fun p => p = 255)
            (map (fun v => if v >? 25 then 255 else 0)
               (zip_with (fun x y => saturate (Z.abs (x - y))) l1 l2)))
  = length (filter (fun p => 25 < Z.abs (fst p - snd p)) (zip l1 l2)).
Proof.
  revert l2. induction l1 as [|x l1 IH]; intros [|y l2]; try reflexivity.
  cbn [zip_with map]. rewrite !filter_cons. cbn [fst snd].
  rewrite saturate_gt_25 by lia.
  destruct (Z.gtb_spec (Z.abs (x - y)) 25) as [Hgt|Hle].
  - rewrite decide_True by reflexivity.
    rewrite decide_True by lia.
    cbn [length]. f_equal. apply IH.
  - rewrite decide_False by discriminate.
    rewrite decide_False by lia.
    apply IH.
Qed.

Lemma absdiff_same_shape (a b : gray) :
  same_shape a b = true ->
  absdiff a b
  = Some (Gray (shape0 a) (shape1 a)
            (zip_with (fun x y => saturate (Z.abs (x - y))) (pixels a) (pixels b))).
Proof. intros Hs. unfold absdiff. rewrite Hs. reflexivity. Qed.

Lemma movement_percentage_changed (prev img d : gray) :
  same_shape prev img = true ->
  absdiff prev img = Some d ->
  (movement_percentage (threshold_binary d 25 255) == changed_percentage prev img)%Q.
Proof.
  intros Hs Hd. rewrite (absdiff_same_shape _ _ Hs) in Hd.
  injection Hd as <-.
  unfold movement_percentage, changed_percentage, count_eq, total_pixels,
    changed_pixels, threshold_binary.
  cbn [pixels shape0 shape1].
  rewrite count_thresholded_difference.
  unfold same_shape in Hs. apply andb_true_iff in Hs as [H0 H1].
  apply Nat.eqb_eq in H0, H1. rewrite H0, H1.
  unfold Qdiv. ring.
Qed.



(** ** Voice activity *)

Lemma from_bytes_pair (lo hi : Byte.byte) :
  from_bytes_little_signed [lo; hi] = int16_le lo hi.
Proof.
  unfold from_bytes_little_signed, from_bytes_little_unsigned, int16_le.
  cbn [fold_right length].
  replace (8 * Z.of_nat 2) with 16 by reflexivity.
  replace (2 ^ (16 - 1)) with 32768 by reflexivity.
  replace (2 ^ 16) with 65536 by reflexivity.
  set (l := Z.of_N (Byte.to_N lo)). set (h := Z.of_N (Byte.to_N hi)).
  replace (l + 256 * (h + 256 * 0)) with (l + 256 * h) by lia.
  destruct (Z.geb_spec (l + 256 * h) 32768), (Z.ltb_spec (l + 256 * h) 32768);
    try reflexivity; lia.
Qed.

Lemma even_chunk_samples (n : nat) (data : list Byte.byte) :
  length data = (2 * n)%nat ->
  map (fun s => Z.abs (from_bytes_little_signed s)) (slices2 data)
  = map Z.abs (samples16 data)
  /\ length (samples16 data) = n.
Proof.
  revert data. induction n as [|n IH]; intros data Hlen.
  - destruct data; [split; reflexivity | discriminate].
  - destruct data as [|lo [|hi rest]]; try (cbn in Hlen; lia).
    cbn [length] in Hlen.
    destruct (IH rest ltac:(lia)) as [Hmap Hn].
    cbn [slices2 samples16 map length].
    rewrite from_bytes_pair, Hmap, Hn. split; reflexivity.
Qed.

Lemma energy_mean_magnitude (data : list Byte.byte) :
  Nat.Even (length data) -> data <> [] ->
  (energy data == mean_magnitude data)%Q.
Proof.
  intros [n Hn] Hne.
  destruct (even_chunk_samples n data Hn) as [Hmap Hlen].
  unfold energy, mean_magnitude, sum_abs_samples.
  rewrite Hmap, Hlen, Hn.
  assert (Hpos : (0 < n)%nat) by (destruct data; [congruence | cbn in Hn; lia]).
  replace (Z.of_nat (2 * n)) with (2 * Z.of_nat n) by lia.
  rewrite inject_Z_mult.
  assert (Hnz : ~ (inject_Z (Z.of_nat n) == 0)%Q).
  { unfold Qeq. simpl. lia. }
  field. exact Hnz.
Qed.

Lemma mean_magnitude_nil : mean_magnitude [] = (0 # 1)%Q.
Proof. reflexivity. Qed.

Lemma detect_voice_energy (am : AudioManager.t) (data : list Byte.byte) :
  AudioManager.voice_detection_enabled am = true ->
  is_Some (AudioManager.stream am) ->
  data <> [] ->
  AudioManager.detect_voice am (Some data) = Qgtb (energy data) 1500.
Proof.
  intros Hen Hst Hne. unfold AudioManager.detect_voice.
  rewrite Hen, bool_decide_eq_true_2 by exact Hst.
  destruct data; [congruence | reflexivity].
Qed.

(** C4.  With voice detection enabled and the stream open, a chunk of
    even byte length is classified as voice exactly when the mean of the
    absolute values of its little-endian signed 16-bit samples is
    strictly above 1500: a mean of 1600 is voice, 1400 is not, and
    exactly 1500 is not. *)
Theorem detect_voice_mean_above_1500
    (am : AudioManager.t) (data : list Byte.byte) :
  AudioManager.voice_detection_enabled am = true ->
  is_Some (AudioManager.stream am) ->
  Nat.Even (length data) ->
  (AudioManager.detect_voice am (Some data) = true
   <-> (1500 < mean_magnitude data)%Q)
  /\ ((mean_magnitude data == 1600)%Q ->
      AudioManager.detect_voice am (Some data) = true)
  /\ ((mean_magnitude data == 1400)%Q ->
      AudioManager.detect_voice am (Some data) = false)
  /\ ((mean_magnitude data == 1500)%Q ->
      AudioManager.detect_voice am (Some data) = false).
Proof.
  intros Hen Hst Heven.
  destruct (decide (data = [])) as [->|Hne].
  - assert (Hf : AudioManager.detect_voice am (Some []) = false).
    { unfold AudioManager.detect_voice.
      rewrite Hen, bool_decide_eq_true_2 by exact Hst. reflexivity. }
    rewrite Hf, mean_magnitude_nil.
    repeat split; try discriminate; try reflexivity.
  - rewrite (detect_voice_energy am data Hen Hst Hne).
    pose proof (energy_mean_magnitude data Heven Hne) as He.
    repeat split.
    + intros Hv. apply Qgtb_true in Hv. rewrite <- He. exact Hv.
    + intros Hv. apply Qgtb_true. rewrite He. exact Hv.
    + intros Hm. apply Qgtb_true. rewrite He, Hm. reflexivity.
    + intros Hm. apply Qgtb_false. rewrite He, Hm. discriminate.
    + intros Hm. apply Qgtb_false. rewrite He, Hm. discriminate.
Qed.

Lemma detect_voice_mean_above_1500_witness :
  AudioManager.detect_voice sample_audio (Some chunk_1600) = true
  /\ AudioManager.detect_voice sample_audio (Some chunk_1400) = false
  /\ AudioManager.detect_voice sample_audio (Some chunk_1500) = false.
Proof.
  assert (Hst : is_Some (AudioManager.stream sample_audio)) by (eexists; reflexivity).
  assert (Hev : Nat.Even (length chunk_1600)) by (exists 2%nat; reflexivity).
  split; [|split].
  - apply (proj1 (proj2
             (detect_voice_mean_above_1500 sample_audio chunk_1600 eq_refl Hst Hev))).
    vm_compute. reflexivity.
  - apply (proj1 (proj2 (proj2
             (detect_voice_mean_above_1500 sample_audio chunk_1400 eq_refl Hst Hev)))).
    vm_compute. reflexivity.
  - apply (proj2 (proj2 (proj2
             (detect_voice_mean_above_1500 sample_audio chunk_1500 eq_refl Hst Hev)))).
    vm_compute. reflexivity.
Defined.
(** ** The controller's invariant is kept *)

Lemma detect_motion_state `{OpenCV} (config : Config.t) (cm cm' : CameraManager.t)
    (f : option frame) (m : bool) :
  CameraManager.detect_motion config cm f = Some (m, cm') ->
  exists (b : list gray) (p : option gray),
    cm' = CameraManager.with_prev_frame p
            (CameraManager.with_background_subtractor b cm).
Proof.
  unfold CameraManager.detect_motion. intros Hd.
  destruct cm as [cam rec md fw fh ms od bs pf sci vw crf].
  cbn [CameraManager.prev_frame CameraManager.background_subtractor] in Hd.
  destruct f as [f|]; [|injection Hd as _ <-; exists bs, pf; reflexivity].
  destruct (Config.use_simple_motion_detection config).
  - destruct pf as [prev|].
    + destruct (absdiff prev _); [|discriminate].
      injection Hd as _ <-. unfold CameraManager.with_prev_frame, CameraManager.with_background_subtractor; cbn; eexists _, _; reflexivity.
    + injection Hd as _ <-. unfold CameraManager.with_prev_frame, CameraManager.with_background_subtractor; cbn; eexists _, _; reflexivity.
  - injection Hd as _ <-. unfold CameraManager.with_prev_frame, CameraManager.with_background_subtractor; cbn; eexists _, _; reflexivity.
Qed.

Lemma alter_last {A} (f : A -> A) (pre : list A) (x : A) :
  alter f (length pre) (pre ++ [x]) = pre ++ [f x].
Proof.
  induction pre as [|y pre IH]; [reflexivity|].
  cbn. f_equal. exact IH.
Qed.

Lemma released_write (f : frame) (x : VideoWriter.t) :
  VideoWriter.released (VideoWriter.write f x) = VideoWriter.released x.
Proof. unfold VideoWriter.write. destruct (_ && _); reflexivity. Qed.

Lemma update_preview_inv `{OpenCV} (env : TickEnv) (a a' : SecurityApp.t) (w w' : World) :
  controller_inv (a, w) ->
  SecurityApp.update_preview env a w = Some (a', w') ->
  controller_inv (a', w').
Proof.
  intros Hinv Hrun. unfold SecurityApp.update_preview in Hrun.
  destruct (CameraManager.camera (SecurityApp.camera_manager a)) as [cam|] eqn:Hcam;
    [|injection Hrun as <- <-; exact Hinv].
  destruct (camera_read env) as [[] [f|]];
    try (injection Hrun as <- <-; exact Hinv).
  destruct (SecurityApp.monitoring a) eqn:Hmon;
    [|injection Hrun as <- <-; exact Hinv].
  unfold SecurityApp.run_detectors in Hrun.
  destruct (CameraManager.detect_motion _ _ _) as [[m cm1]|] eqn:Hdet; [|discriminate].
  apply detect_motion_state in Hdet as (b & p & ->).
  destruct a as [cfg cm am mon lmt lvt lvc].
  destruct cm as [cam0 rec md fw fh ms od bs pf sci vw crf].
  destruct am as [vde st arec vd aod fr smi acrf].
  destruct w as [sinks waves].
  destruct Hinv as (Hrec & Hmd & Hvd & Hw). cbn in Hrec, Hmd, Hvd, Hw. subst arec md vd.
  clear Hcam Hmon.
  unfold SecurityApp.update_indicators, SecurityApp.handle_recording,
    SecurityApp.update_recording_state, SecurityApp.should_continue,
    CameraManager.start_recording, AudioManager.start_recording,
    CameraManager.stop_recording, AudioManager.stop_recording,
    CameraManager.record_frame, AudioManager.record_audio,
    CameraManager.on_video_writer in Hrun.
  cbn in Hrun.
  destruct rec; cbn in Hw.
  - destruct Hw as (pre & writer & -> & -> & Hlive & Hpre).
    destruct (Qgtb (time_check env - lvc) _);
      [destruct (AudioManager.detect_voice _ _)|];
      destruct m; cbn in Hrun;
      try (destruct (Qltb _ _); cbn in Hrun);
      rewrite ?alter_last in Hrun;
      injection Hrun as <- <-; unfold controller_inv; cbn;
      repeat split;
      try (destruct (bool_decide _); reflexivity);
      try (exists pre; eexists; repeat split;
           [rewrite released_write; exact Hlive | exact Hpre]);
      try (apply Forall_app; split; [exact Hpre | repeat constructor]).
  - destruct (Qgtb (time_check env - lvc) _);
      [destruct (AudioManager.detect_voice _ _)|];
      destruct m; cbn in Hrun;
      rewrite ?alter_last in Hrun;
      injection Hrun as <- <-; unfold controller_inv; cbn;
      repeat split;
      try (destruct (bool_decide _); reflexivity);
      try exact Hw;
      try (exists sinks; eexists; repeat split;
           [rewrite released_write; reflexivity | exact Hw]).
Qed.

Lemma toggle_monitoring_inv (a : SecurityApp.t) (w : World) :
  controller_inv (a, w) -> controller_inv (SecurityApp.toggle_monitoring a w).
Proof.
  intros (Hrec & Hmd & Hvd & Hw).
  destruct a as [cfg cm am mon lmt lvt lvc].
  destruct cm as [cam0 rec md fw fh ms od bs pf sci vw crf].
  destruct am as [vde st arec vd aod fr smi acrf].
  destruct w as [sinks waves].
  cbn in Hrec, Hmd, Hvd, Hw. subst arec md vd.
  unfold SecurityApp.toggle_monitoring, CameraManager.stop_recording,
    AudioManager.stop_recording, CameraManager.on_video_writer.
  destruct mon, rec; cbn; unfold controller_inv; cbn; repeat split;
    try exact Hw.
  cbn in Hw. destruct Hw as (pre & writer & -> & -> & Hlive & Hpre).
  rewrite alter_last. apply Forall_app. split; [exact Hpre|].
  repeat constructor.
Qed.

Lemma init_inv (config : Config.t) (width height : Z)
    (device_opens : Z -> bool) (stream_opens : bool) :
  controller_inv
    (SecurityApp.init config width height device_opens stream_opens, empty_world).
Proof.
  unfold controller_inv, SecurityApp.init, AudioManager.start_stream.
  destruct stream_opens; cbn; repeat split; constructor.
Qed.

Lemma reachable_inv `{OpenCV} (s : SecurityApp.t * World) :
  reachable s -> controller_inv s.
Proof.
  induction 1 as [config width height device_opens stream_opens
                 | s s' _ IH Hstep].
  - apply init_inv.
  - destruct Hstep as [env a a' w w' Hrun | a w].
    + exact (update_preview_inv env a a' w w' IH Hrun).
    + exact (toggle_monitoring_inv a w IH).
Qed.

Lemma filter_all_released (l : list VideoWriter.t) :
  Forall (fun x => VideoWriter.released x = true) l ->
  filter (fun x => VideoWriter.live x = true) l = [].
Proof.
  induction 1 as [|x l Hx _ IH]; [reflexivity|].
  rewrite filter_cons, decide_False, IH; [reflexivity|].
  unfold VideoWriter.live. rewrite Hx. discriminate.
Qed.

Lemma inv_session (s : SecurityApp.t * World) :
  controller_inv s ->
  (session_exists s <-> recording s = true)
  /\ (length (live_writers (snd s)) <= 1)%nat
  /\ (Forall (fun x => VideoWriter.isOpened x = true) (video_sinks (snd s)) ->
      (session_open s <-> recording s = true)).
Proof.
  destruct s as [a w]. intros (Hrec & _ & _ & Hw).
  unfold session_exists, session_open, recording, live_writers. cbn [fst snd] in *.
  destruct (CameraManager.is_recording (SecurityApp.camera_manager a)) eqn:Hr;
    cbn in Hw.
  - destruct Hw as (pre & writer & Hs & Href & Hlive & Hpre).
    assert (Hlook : video_sinks w !! length pre = Some writer).
    { rewrite Hs. apply list_lookup_middle. reflexivity. }
    assert (Hl : VideoWriter.live writer = true).
    { unfold VideoWriter.live. rewrite Hlive. reflexivity. }
    split; [|split].
    + split; [reflexivity|]. intros _. exists (length pre), writer. auto.
    + rewrite Hs, filter_app, filter_all_released by exact Hpre.
      rewrite filter_cons, filter_nil. destruct (decide _); cbn; lia.
    + intros Hopen. split; [reflexivity|]. intros _.
      exists (length pre), writer. repeat split; auto.
      rewrite Forall_forall in Hopen. apply Hopen.
      rewrite Hs. apply elem_of_app. right. apply list_elem_of_singleton. reflexivity.
  - split; [|split].
    + split; [|discriminate].
      intros (ref & writer & _ & _ & _ & Ha). congruence.
    + rewrite filter_all_released by exact Hw. cbn. lia.
    + intros _. split; [|discriminate].
      intros (ref & writer & _ & _ & _ & _ & Ha). congruence.
Qed.

(** ** Ticks without a frame *)

(** C7.  A tick on which [camera.read()] yields no frame returns with
    the whole state as it was: both managers with their recording flags
    and detector state, the time stamps, the video writers and the audio
    buffer.  A session in progress is not ended by it. *)
Theorem update_preview_no_frame `{OpenCV}
    (env : TickEnv) (a : SecurityApp.t) (w : World) :
  fst (camera_read env) = false \/ snd (camera_read env) = None ->
  SecurityApp.update_preview env a w = Some (a, w).
Proof.
  intros Hread. unfold SecurityApp.update_preview.
  destruct (CameraManager.camera (SecurityApp.camera_manager a)); [|reflexivity].
  destruct (camera_read env) as [[] [f|]]; cbn in Hread;
    try reflexivity; destruct Hread; discriminate.
Qed.

(** ** The activity time stamps *)

Lemma run_detectors_state `{OpenCV} (env : TickEnv) (f : frame)
    (a a1 : SecurityApp.t) (m v : bool) :
  SecurityApp.run_detectors env f a = Some (m, v, a1) ->
  exists (b : list gray) (p : option gray) (c : Q),
    a1 = SecurityApp.with_last_voice_check_time c
           (SecurityApp.with_camera_manager
              (CameraManager.with_prev_frame p
                 (CameraManager.with_background_subtractor b
                    (SecurityApp.camera_manager a))) a).
Proof.
  unfold SecurityApp.run_detectors. intros Hrun.
  destruct (CameraManager.detect_motion _ _ _) as [[m0 cm1]|] eqn:Hdet; [|discriminate].
  apply detect_motion_state in Hdet as (b & p & ->).
  destruct (Qgtb _ _); injection Hrun as _ _ <-.
  - exists b, p. eexists. reflexivity.
  - exists b, p, (SecurityApp.last_voice_check_time a).
    destruct a; reflexivity.
Qed.

Lemma update_preview_last_times `{OpenCV}
    (env : TickEnv) (a a' : SecurityApp.t) (w w' : World) :
  SecurityApp.update_preview env a w = Some (a', w') ->
  SecurityApp.last_motion_time a'
  = (if motion_reported env a then time_motion env
     else SecurityApp.last_motion_time a)
  /\ SecurityApp.last_voice_time a'
     = (if voice_reported env a then time_voice env
        else SecurityApp.last_voice_time a).
Proof.
  unfold SecurityApp.update_preview, motion_reported, voice_reported, verdicts.
  intros Hrun.
  destruct (CameraManager.camera (SecurityApp.camera_manager a)) as [cam|];
    [|injection Hrun as <- <-; split; reflexivity].
  destruct (camera_read env) as [[] [f|]];
    try (injection Hrun as <- <-; split; reflexivity).
  destruct (SecurityApp.monitoring a);
    [|injection Hrun as <- <-; split; reflexivity].
  destruct (SecurityApp.run_detectors env f a) as [[[m v] a1]|] eqn:Hdet;
    [|discriminate].
  apply run_detectors_state in Hdet as (b & p & c & ->).
  cbn [option_map fst].
  destruct a as [cfg cm am mon lmt lvt lvc]. destruct w as [sinks waves].
  destruct cm as [cam0 rec md fw fh ms od bs pf sci vw crf].
  destruct am as [vde st arec vd aod fr smi acrf].
  unfold SecurityApp.update_indicators, SecurityApp.handle_recording,
    SecurityApp.update_recording_state, CameraManager.start_recording,
    AudioManager.start_recording, CameraManager.stop_recording,
    AudioManager.stop_recording in Hrun.
  cbn in Hrun.
  destruct m, v, rec; cbn in Hrun;
    try (destruct (SecurityApp.should_continue _ _); cbn in Hrun);
    try (destruct arec; cbn in Hrun);
    injection Hrun as <- _; split; reflexivity.
Qed.

Lemma clock_monotone_app (t0 : Q) (envs envs' : list TickEnv) :
  clock_monotone t0 (envs ++ envs') ->
  clock_monotone t0 envs /\ clock_monotone (clock_end t0 envs) envs'.
Proof.
  revert t0. induction envs as [|env envs IH]; intros t0 Hc.
  - split; [exact I | exact Hc].
  - cbn in Hc. destruct Hc as (H0 & H1 & H2 & H3 & Hrest).
    destruct (IH _ Hrest) as [Ha Hb].
    split; [cbn; auto | exact Hb].
Qed.

Lemma update_preview_times_bound `{OpenCV}
    (env : TickEnv) (a a' : SecurityApp.t) (w w' : World) (t0 : Q) :
  clock_monotone t0 [env] ->
  (SecurityApp.last_motion_time a <= t0)%Q ->
  (SecurityApp.last_voice_time a <= t0)%Q ->
  SecurityApp.update_preview env a w = Some (a', w') ->
  (SecurityApp.last_motion_time a <= SecurityApp.last_motion_time a')%Q
  /\ (SecurityApp.last_voice_time a <= SecurityApp.last_voice_time a')%Q
  /\ (SecurityApp.last_motion_time a' <= time_linger env)%Q
  /\ (SecurityApp.last_voice_time a' <= time_linger env)%Q.
Proof.
  intros (H0 & H1 & H2 & H3 & _) Hm Hv Hrun.
  destruct (update_preview_last_times env a a' w w' Hrun) as [-> ->].
  assert (Hcm : (t0 <= time_motion env)%Q) by (eapply Qle_trans; eassumption).
  assert (Hcv : (t0 <= time_voice env)%Q) by (eapply Qle_trans; eassumption).
  assert (Hcl : (t0 <= time_linger env)%Q) by (eapply Qle_trans; eassumption).
  assert (Hml : (time_motion env <= time_linger env)%Q)
    by (eapply Qle_trans; eassumption).
  destruct (motion_reported env a), (voice_reported env a); repeat split;
    try apply Qle_refl; try assumption;
    eapply Qle_trans; eassumption.
Qed.

Lemma run_times_bound `{OpenCV} (envs : list TickEnv)
    (a a1 : SecurityApp.t) (w w1 : World) (t0 : Q) :
  clock_monotone t0 envs ->
  (SecurityApp.last_motion_time a <= t0)%Q ->
  (SecurityApp.last_voice_time a <= t0)%Q ->
  run envs a w = Some (a1, w1) ->
  (SecurityApp.last_motion_time a1 <= clock_end t0 envs)%Q
  /\ (SecurityApp.last_voice_time a1 <= clock_end t0 envs)%Q.
Proof.
  revert a w t0. induction envs as [|env envs IH]; intros a w t0 Hc Hm Hv Hrun.
  - injection Hrun as <- <-. split; assumption.
  - cbn in Hrun.
    destruct (SecurityApp.update_preview env a w) as [[a' w']|] eqn:Htick;
      [|discriminate].
    cbn in Hc. destruct Hc as (H0 & H1 & H2 & H3 & Hrest).
    assert (Hone : clock_monotone t0 [env]) by (cbn; auto).
    destruct (update_preview_times_bound env a a' w w' t0 Hone Hm Hv Htick)
      as (_ & _ & Hm' & Hv').
    exact (IH a' w' (time_linger env) Hrest Hm' Hv' Hrun).
Qed.

(** C5.  Along every sequence of ticks read off a clock that does not
    go back, a further tick never lowers [last_motion_time] nor
    [last_voice_time]; each of them is assigned only on a tick whose
    detector reports true, and then receives the clock reading taken at
    that moment. *)
Theorem last_times_never_decrease `{OpenCV}
    (envs : list TickEnv) (env : TickEnv)
    (a a1 a2 : SecurityApp.t) (w w1 w2 : World) (t0 : Q) :
  (SecurityApp.last_motion_time a <= t0)%Q ->
  (SecurityApp.last_voice_time a <= t0)%Q ->
  clock_monotone t0 (envs ++ [env]) ->
  run envs a w = Some (a1, w1) ->
  SecurityApp.update_preview env a1 w1 = Some (a2, w2) ->
  (SecurityApp.last_motion_time a1 <= SecurityApp.last_motion_time a2)%Q
  /\ (SecurityApp.last_voice_time a1 <= SecurityApp.last_voice_time a2)%Q
  /\ SecurityApp.last_motion_time a2
     = (if motion_reported env a1 then time_motion env
        else SecurityApp.last_motion_time a1)
  /\ SecurityApp.last_voice_time a2
     = (if voice_reported env a1 then time_voice env
        else SecurityApp.last_voice_time a1).
Proof.
  intros Hm Hv Hc Hrun Htick.
  apply clock_monotone_app in Hc as [Hc1 Hc2].
  destruct (run_times_bound envs a a1 w w1 t0 Hc1 Hm Hv Hrun) as [Hm1 Hv1].
  destruct (update_preview_times_bound env a1 a2 w1 w2 _ Hc2 Hm1 Hv1 Htick)
    as (Hlm & Hlv & _ & _).
  destruct (update_preview_last_times env a1 a2 w1 w2 Htick) as [Em Ev].
  repeat split; assumption.
Qed.

(** ** Ticks in the Recording state *)

Lemma recording_tick_data `{OpenCV}
    (env : TickEnv) (f : frame) (m v : bool) (a : SecurityApp.t) (w : World) :
  controller_inv (a, w) ->
  recording (a, w) = true ->
  camera_read env = (true, Some f) ->
  verdicts env a = Some (m, v) ->
  exists (a' : SecurityApp.t) (w' : World),
    SecurityApp.update_preview env a w = Some (a', w')
    /\ recording (a', w') = m || v || within_linger env a'
    /\ SecurityApp.config a' = SecurityApp.config a
    /\ (m = false -> v = false ->
        SecurityApp.last_motion_time a' = SecurityApp.last_motion_time a
        /\ SecurityApp.last_voice_time a' = SecurityApp.last_voice_time a)
    /\ (recording (a', w') = true ->
        w' = CameraManager.on_video_writer (VideoWriter.write f) w
               (SecurityApp.camera_manager a)
        /\ (is_Some (AudioManager.stream (SecurityApp.audio_manager a)) ->
            AudioManager.frames (SecurityApp.audio_manager a')
            = AudioManager.frames (SecurityApp.audio_manager a) ++ [audio_read env]))
    /\ (recording (a', w') = false ->
        video_sinks w'
        = video_sinks (CameraManager.on_video_writer VideoWriter.release w
                         (SecurityApp.camera_manager a))
        /\ (exists wf : WaveFile.t,
              wave_files w' = wave_files w ++ [wf]
              /\ WaveFile.data wf
                 = concat (AudioManager.frames (SecurityApp.audio_manager a))
              /\ WaveFile.filename wf
                 = default EmptyString
                     (AudioManager.current_recording_file
                        (SecurityApp.audio_manager a)))
        /\ AudioManager.is_recording (SecurityApp.audio_manager a') = false
        /\ AudioManager.frames (SecurityApp.audio_manager a') = []).
Proof.
  intros Hinv Hrec Hread Hverd.
  unfold verdicts in Hverd. unfold SecurityApp.update_preview.
  destruct (CameraManager.camera (SecurityApp.camera_manager a)) as [cam|];
    [|discriminate].
  rewrite Hread in *.
  destruct (SecurityApp.monitoring a); [|discriminate].
  destruct (SecurityApp.run_detectors env f a) as [[[m0 v0] a1]|] eqn:Hdet;
    [|discriminate].
  injection Hverd as -> ->.
  apply run_detectors_state in Hdet as (b & p & c & ->).
  destruct a as [cfg cm am mon lmt lvt lvc]. destruct w as [sinks waves].
  destruct cm as [cam0 rec md fw fh ms od bs pf sci vw crf].
  destruct am as [vde st arec vd aod fr smi acrf].
  destruct Hinv as (Harec & Hmd & Hvd & Hw).
  cbn in Hrec, Harec, Hmd, Hvd, Hw. subst rec arec md vd. cbn in Hw.
  destruct Hw as (pre & writer & -> & -> & Hlive & Hpre).
  unfold SecurityApp.update_indicators, SecurityApp.handle_recording,
    SecurityApp.update_recording_state, SecurityApp.should_continue,
    CameraManager.stop_recording, AudioManager.stop_recording,
    CameraManager.record_frame, AudioManager.record_audio,
    CameraManager.on_video_writer, within_linger, recording.
  destruct m, v; cbn;
    try (destruct (Qltb (time_linger env - py_max lmt lvt) _) eqn:Hl; cbn);
    (eexists _, _; split; [reflexivity|]); cbn; rewrite ?Hl;
    repeat split; try discriminate; try congruence;
    try (intros Hst; rewrite bool_decide_eq_true_2 by exact Hst; reflexivity).
  eexists. repeat split.
Qed.

Lemma within_linger_compat (env : TickEnv) (a a' : SecurityApp.t) :
  SecurityApp.config a' = SecurityApp.config a ->
  SecurityApp.last_motion_time a' = SecurityApp.last_motion_time a ->
  SecurityApp.last_voice_time a' = SecurityApp.last_voice_time a ->
  within_linger env a' = within_linger env a.
Proof. unfold within_linger. intros -> -> ->. reflexivity. Qed.

(** C2.  A tick taken in the Recording state keeps recording exactly
    when motion or voice is detected on it or
    [now - max(last_motion_time, last_voice_time)] is below the linger
    time; it then hands the frame to the video writer and appends the
    audio chunk to the buffer.  Otherwise it releases the video writer,
    writes the buffer to the wave file and leaves no session.  With a
    linger time of 10 and the last activity at [t0], a tick without
    activity at [t0 + 9.9] keeps the session and one at [t0 + 10.1]
    ends it. *)
Theorem recording_tick_keeps_or_stops `{OpenCV}
    (env : TickEnv) (f : frame) (m v : bool) (a : SecurityApp.t) (w : World) :
  reachable (a, w) ->
  recording (a, w) = true ->
  camera_read env = (true, Some f) ->
  verdicts env a = Some (m, v) ->
  exists (a' : SecurityApp.t) (w' : World),
    SecurityApp.update_preview env a w = Some (a', w')
    /\ recording (a', w') = m || v || within_linger env a'
    /\ (recording (a', w') = true ->
        w' = CameraManager.on_video_writer (VideoWriter.write f) w
               (SecurityApp.camera_manager a)
        /\ (is_Some (AudioManager.stream (SecurityApp.audio_manager a)) ->
            AudioManager.frames (SecurityApp.audio_manager a')
            = AudioManager.frames (SecurityApp.audio_manager a) ++ [audio_read env])
        /\ session_exists (a', w'))
    /\ (recording (a', w') = false ->
        video_sinks w'
        = video_sinks (CameraManager.on_video_writer VideoWriter.release w
                         (SecurityApp.camera_manager a))
        /\ live_writers w' = []
        /\ (exists wf : WaveFile.t,
              wave_files w' = wave_files w ++ [wf]
              /\ WaveFile.data wf
                 = concat (AudioManager.frames (SecurityApp.audio_manager a))
              /\ WaveFile.filename wf
                 = default EmptyString
                     (AudioManager.current_recording_file
                        (SecurityApp.audio_manager a)))
        /\ AudioManager.is_recording (SecurityApp.audio_manager a') = false
        /\ AudioManager.frames (SecurityApp.audio_manager a') = []
        /\ ~ session_exists (a', w'))
    /\ (Config.post_detection_record_time (SecurityApp.config a) = 10 ->
        m = false -> v = false ->
        forall t0 : Q,
          (py_max (SecurityApp.last_motion_time a) (SecurityApp.last_voice_time a)
           == t0)%Q ->
          ((time_linger env == t0 + (99 # 10))%Q -> recording (a', w') = true)
          /\ ((time_linger env == t0 + (101 # 10))%Q -> recording (a', w') = false)).
Proof.
  intros Hreach Hrec Hread Hverd.
  pose proof (reachable_inv _ Hreach) as Hinv.
  destruct (recording_tick_data env f m v a w Hinv Hrec Hread Hverd)
    as (a' & w' & Htick & Hkeep & Hcfg & Htimes & Hon & Hoff).
  pose proof (update_preview_inv env a a' w w' Hinv Htick) as Hinv'.
  destruct (inv_session _ Hinv') as (Hsess & _ & _).
  exists a', w'. split; [exact Htick|]. split; [exact Hkeep|].
  split; [|split].
  - intros Hr. destruct (Hon Hr) as [Hw Hfr].
    repeat split; [exact Hw | exact Hfr | apply Hsess; exact Hr].
  - intros Hr. destruct (Hoff Hr) as (Hs & Hwf & Har & Hfr).
    repeat split; try assumption.
    + destruct Hinv' as (_ & _ & _ & Hwr). unfold recording in Hr.
      cbn [fst snd] in Hwr, Hr. rewrite Hr in Hwr.
      apply filter_all_released. exact Hwr.
    + rewrite Hsess, Hr. discriminate.
  - intros Hl -> -> t0 Ht0.
    destruct (Htimes eq_refl eq_refl) as [Em Ev].
    rewrite Hkeep, (within_linger_compat env a a' Hcfg Em Ev).
    unfold within_linger. rewrite Hl. cbn [orb]. split; intros Hnow.
    + apply Qltb_true. rewrite Hnow, Ht0. unfold Qlt, Qminus, Qplus. cbn.
      destruct t0 as [n d]. cbn. lia.
    + apply Qltb_false. rewrite Hnow, Ht0. unfold Qle, Qminus, Qplus. cbn.
      destruct t0 as [n d]. cbn. lia.
Qed.

(** ** The sample run, evaluated *)

Example sample_run_lifecycle :
  recording sample_on = false
  /\ recording sample_recording = true
  /\ recording sample_lingering = true
  /\ recording sample_stopped = false
  /\ map (fun x => length (VideoWriter.written x))
         (video_sinks (snd sample_stopped)) = [2%nat]
  /\ map WaveFile.data (wave_files (snd sample_stopped))
     = [chunk_1600 ++ chunk_quiet].
Proof. vm_compute. repeat split. Qed.

Lemma sample_on_reachable : reachable (H := sample_cv) sample_on.
Proof.
  apply reachable_step with (s := (sample_app0, empty_world)).
  - apply reachable_init.
  - apply step_toggle.
Qed.

Lemma after_reachable (envs : list TickEnv) (s : SecurityApp.t * World) :
  reachable (H := sample_cv) s ->
  reachable (H := sample_cv)
    (default s (run (H := sample_cv) envs (fst s) (snd s))).
Proof.
  revert s. induction envs as [|env envs IH]; intros [a w] Hs.
  - exact Hs.
  - cbn [run fst snd].
    destruct (SecurityApp.update_preview env a w) as [[a' w']|] eqn:Htick;
      [|exact Hs].
    assert (Hs' : reachable (H := sample_cv) (a', w')).
    { apply reachable_step with (s := (a, w)); [exact Hs|].
      apply step_tick with (env := env). exact Htick. }
    specialize (IH (a', w') Hs'). cbn [fst snd] in IH.
    destruct (run envs a' w') as [s''|]; cbn [default] in *.
    + exact IH.
    + exact Hs.
Qed.

Lemma sample_after_reachable (envs : list TickEnv) :
  reachable (H := sample_cv) (after envs).
Proof. apply after_reachable. exact sample_on_reachable. Qed.

Lemma update_preview_no_frame_witness :
  recording sample_recording = true
  /\ SecurityApp.update_preview (H := sample_cv) (tick_without_frame (109 # 10))
       (fst sample_recording) (snd sample_recording)
     = Some (fst sample_recording, snd sample_recording).
Proof.
  split; [reflexivity|].
  apply (update_preview_no_frame (H := sample_cv)).
  left. reflexivity.
Defined.

(** ** The session invariant *)

(** C1.  In every state the tick loop can reach, a recording session
    (a video writer held and not released, together with the audio
    buffer being accumulated) exists exactly when the controller is
    recording, the two managers agree on that, and the store never holds
    more than one unreleased writer.  When every writer created so far
    did open its file, the session's writer is an open one. *)
Theorem session_iff_recording `{OpenCV} (s : SecurityApp.t * World) :
  reachable s ->
  (session_exists s <-> recording s = true)
  /\ AudioManager.is_recording (SecurityApp.audio_manager (fst s)) = recording s
  /\ (length (live_writers (snd s)) <= 1)%nat
  /\ (Forall (fun x => VideoWriter.isOpened x = true) (video_sinks (snd s)) ->
      (session_open s <-> recording s = true)).
Proof.
  intros Hreach. pose proof (reachable_inv s Hreach) as Hinv.
  destruct (inv_session s Hinv) as (Hsess & Hlive & Hopen).
  destruct Hinv as (Hagree & _).
  repeat split; try assumption; try apply Hsess; try apply Hopen; assumption.
Qed.

Lemma session_iff_recording_witness :
  session_exists sample_recording
  /\ session_open sample_recording
  /\ ~ session_exists sample_stopped
  /\ (length (live_writers (snd sample_recording)) <= 1)%nat.
Proof.
  pose proof (session_iff_recording (H := sample_cv) sample_recording
                (sample_after_reachable [env_event])) as (Hs & _ & Hl & Ho).
  pose proof (session_iff_recording (H := sample_cv) sample_stopped
                (sample_after_reachable [env_event; env_quiet_9_9; env_quiet_10_1]))
    as (Hs' & _).
  split; [apply Hs; reflexivity|].
  split; [apply Ho; [repeat constructor | reflexivity]|].
  split; [rewrite Hs'; discriminate | exact Hl].
Defined.

Lemma last_times_never_decrease_witness :
  (SecurityApp.last_voice_time (fst sample_recording)
   <= SecurityApp.last_voice_time (fst sample_lingering))%Q
  /\ SecurityApp.last_voice_time (fst sample_recording) = 1%Q
  /\ SecurityApp.last_motion_time (fst sample_lingering) = 0%Q.
Proof.
  assert (Hclock : clock_monotone 0 ([env_event] ++ [env_quiet_9_9])).
  { cbn. repeat split; unfold Qle; cbn; lia. }
  assert (Hzero : (0 <= 0)%Q) by (unfold Qle; cbn; lia).
  pose proof (last_times_never_decrease (H := sample_cv)
                [env_event] env_quiet_9_9
                (fst sample_on) (fst sample_recording) (fst sample_lingering)
                (snd sample_on) (snd sample_recording) (snd sample_lingering)
                0 Hzero Hzero Hclock eq_refl eq_refl)
    as (_ & Hv & Em & _).
  split; [exact Hv|]. split; [reflexivity|]. exact Em.
Defined.

Lemma recording_tick_keeps_or_stops_witness :
  (exists (a' : SecurityApp.t) (w' : World),
     SecurityApp.update_preview (H := sample_cv) env_quiet_9_9
       (fst sample_recording) (snd sample_recording) = Some (a', w')
     /\ recording (a', w') = true
     /\ session_exists (a', w'))
  /\ (exists (a' : SecurityApp.t) (w' : World),
        SecurityApp.update_preview (H := sample_cv) env_quiet_10_1
          (fst sample_lingering) (snd sample_lingering) = Some (a', w')
        /\ recording (a', w') = false
        /\ ~ session_exists (a', w')
        /\ live_writers w' = []).
Proof.
  split.
  - destruct (recording_tick_keeps_or_stops (H := sample_cv)
                env_quiet_9_9 dark_frame false false
                (fst sample_recording) (snd sample_recording)
                (sample_after_reachable [env_event]) eq_refl eq_refl eq_refl)
      as (a' & w' & Htick & _ & Hon & _ & Hlife).
    assert (Hr : recording (a', w') = true).
    { apply (Hlife eq_refl eq_refl eq_refl 1%Q); reflexivity. }
    exists a', w'. split; [exact Htick|]. split; [exact Hr|].
    apply (Hon Hr).
  - destruct (recording_tick_keeps_or_stops (H := sample_cv)
                env_quiet_10_1 dark_frame false false
                (fst sample_lingering) (snd sample_lingering)
                (sample_after_reachable [env_event; env_quiet_9_9])
                eq_refl eq_refl eq_refl)
      as (a' & w' & Htick & _ & _ & Hoff & Hlife).
    assert (Hr : recording (a', w') = false).
    { apply (Hlife eq_refl eq_refl eq_refl 1%Q); reflexivity. }
    exists a', w'. split; [exact Htick|]. split; [exact Hr|].
    destruct (Hoff Hr) as (_ & Hlive & _ & _ & _ & Hno).
    split; [exact Hno | exact Hlive].
Defined.

(** ** Switching devices during a session *)

Lemma change_camera_leaves_audio (device_opens : Z -> bool) (camera_index : Z)
    (a : SecurityApp.t) (w : World) :
  let s' := snd (SecurityApp.change_camera device_opens camera_index a w) in
  SecurityApp.audio_manager (fst s') = SecurityApp.audio_manager a
  /\ wave_files (snd s') = wave_files w
  /\ CameraManager.is_recording (SecurityApp.camera_manager (fst s')) = false.
Proof.
  destruct a as [cfg cm am mon lmt lvt lvc]. destruct w as [sinks waves].
  destruct cm as [cam0 rec md fw fh ms od bs pf sci vw crf].
  unfold SecurityApp.change_camera, CameraManager.set_camera,
    CameraManager.stop_recording, CameraManager.on_video_writer,
    CameraManager.open_camera.
  destruct rec; cbn; try destruct vw; cbn; repeat split.
Qed.

Lemma change_microphone_leaves_video (opens : bool) (mic_index : option Z)
    (a : SecurityApp.t) (w : World) :
  let s' := snd (SecurityApp.change_microphone opens mic_index a w) in
  SecurityApp.camera_manager (fst s') = SecurityApp.camera_manager a
  /\ video_sinks (snd s') = video_sinks w
  /\ AudioManager.is_recording (SecurityApp.audio_manager (fst s')) = false.
Proof.
  destruct a as [cfg cm am mon lmt lvt lvc]. destruct w as [sinks waves].
  destruct am as [vde st arec vd aod fr smi acrf].
  unfold SecurityApp.change_microphone, AudioManager.set_microphone,
    AudioManager.stop_recording, AudioManager.stop_stream,
    AudioManager.start_stream.
  destruct arec, st, opens; cbn; repeat split.
Qed.

(** C6, on the sample session.  Switching the camera releases the video
    writer but leaves the audio manager recording, with its buffer kept
    and no wave file written; the next session start then empties that
    buffer.  Switching the microphone writes the wave file but leaves the
    video writer unreleased and the camera manager recording. *)
Theorem device_switch_finalizes_one_sink_only :
  session_exists sample_recording
  /\ recording sample_camera_switched = false
  /\ live_writers (snd sample_camera_switched) = []
  /\ AudioManager.is_recording
       (SecurityApp.audio_manager (fst sample_camera_switched)) = true
  /\ AudioManager.frames
       (SecurityApp.audio_manager (fst sample_camera_switched)) = [chunk_1600]
  /\ wave_files (snd sample_camera_switched) = []
  /\ AudioManager.frames
       (SecurityApp.audio_manager (fst sample_camera_switched_restarted))
     = [chunk_quiet]
  /\ wave_files (snd sample_camera_switched_restarted) = []
  /\ AudioManager.is_recording
       (SecurityApp.audio_manager (fst sample_microphone_switched)) = false
  /\ map WaveFile.data (wave_files (snd sample_microphone_switched))
     = [chunk_1600]
  /\ recording sample_microphone_switched = true
  /\ length (live_writers (snd sample_microphone_switched)) = 1%nat.
Proof.
  split.
  - apply (inv_session sample_recording).
    + apply (reachable_inv (H := sample_cv)). apply sample_after_reachable.
    + reflexivity.
  - vm_compute. repeat split.
Qed.

(** ** Session creation *)

(** C8, as the code has it.  Session creation has no failure path: a
    tick that detects activity while idle stores the writer
    [cv2.VideoWriter] returns and raises both recording flags whether or
    not that writer opened, and opens no audio file at all.  The tick
    ends in the Recording state, holding a writer that is open exactly
    when the library managed to open it. *)
Theorem session_creation_ignores_sink_failure `{OpenCV}
    (env : TickEnv) (f : frame) (m v : bool) (a : SecurityApp.t) (w : World) :
  reachable (a, w) ->
  recording (a, w) = false ->
  camera_read env = (true, Some f) ->
  verdicts env a = Some (m, v) ->
  m || v = true ->
  exists (a' : SecurityApp.t) (w' : World) (writer : VideoWriter.t),
    SecurityApp.update_preview env a w = Some (a', w')
    /\ recording (a', w') = true
    /\ AudioManager.is_recording (SecurityApp.audio_manager a') = true
    /\ video_sinks w' = video_sinks w ++ [writer]
    /\ CameraManager.video_writer (SecurityApp.camera_manager a')
       = Some (length (video_sinks w))
    /\ VideoWriter.isOpened writer = writer_opened env
    /\ VideoWriter.released writer = false
    /\ VideoWriter.written writer = (if writer_opened env then [f] else [])
    /\ wave_files w' = wave_files w
    /\ session_exists (a', w')
    /\ (writer_opened env = false -> ~ session_open (a', w')).
Proof.
  intros Hreach Hrec Hread Hverd Hact.
  pose proof (reachable_inv _ Hreach) as Hinv.
  assert (Hdata :
    exists (a' : SecurityApp.t) (w' : World) (writer : VideoWriter.t),
      SecurityApp.update_preview env a w = Some (a', w')
      /\ recording (a', w') = true
      /\ AudioManager.is_recording (SecurityApp.audio_manager a') = true
      /\ video_sinks w' = video_sinks w ++ [writer]
      /\ CameraManager.video_writer (SecurityApp.camera_manager a')
         = Some (length (video_sinks w))
      /\ VideoWriter.isOpened writer = writer_opened env
      /\ VideoWriter.released writer = false
      /\ VideoWriter.written writer = (if writer_opened env then [f] else [])
      /\ wave_files w' = wave_files w).
  { clear Hreach. unfold verdicts in Hverd. unfold SecurityApp.update_preview.
    destruct (CameraManager.camera (SecurityApp.camera_manager a)) as [cam|];
      [|discriminate].
    rewrite Hread in *.
    destruct (SecurityApp.monitoring a); [|discriminate].
    destruct (SecurityApp.run_detectors env f a) as [[[m0 v0] a1]|] eqn:Hdet;
      [|discriminate].
    injection Hverd as -> ->.
    apply run_detectors_state in Hdet as (b & p & c & ->).
    destruct a as [cfg cm am mon lmt lvt lvc]. destruct w as [sinks waves].
    destruct cm as [cam0 rec md fw fh ms od bs pf sci vw crf].
    destruct am as [vde st arec vd aod fr smi acrf].
    destruct Hinv as (Harec & Hmd & Hvd & Hw).
    cbn in Hrec, Harec, Hmd, Hvd, Hw. subst rec arec md vd.
    unfold SecurityApp.update_indicators, SecurityApp.handle_recording,
      SecurityApp.update_recording_state, SecurityApp.should_continue,
      CameraManager.start_recording, AudioManager.start_recording,
      CameraManager.record_frame, AudioManager.record_audio,
      CameraManager.on_video_writer, recording.
    unfold VideoWriter.write.
    destruct (writer_opened env); destruct m, v; try discriminate; cbn;
      destruct (bool_decide (is_Some st)); rewrite alter_last;
      (eexists _, _, _; split; [reflexivity|]); cbn; repeat split. }
  destruct Hdata as (a' & w' & writer & Htick & Hr & Har & Hs & Hvw & Ho & Hrel & Hwr & Hwf).
  pose proof (update_preview_inv env a a' w w' Hinv Htick) as Hinv'.
  destruct (inv_session _ Hinv') as (Hsess & _ & _).
  exists a', w', writer. repeat split; try assumption.
  - apply Hsess. exact Hr.
  - intros Hfail (ref & writer' & Href & Hlook & _ & Hopen & _).
    cbn [fst snd] in Href, Hlook. rewrite Hvw in Href. injection Href as <-.
    rewrite Hs, list_lookup_middle in Hlook by reflexivity.
    injection Hlook as <-. congruence.
Qed.

Lemma session_creation_ignores_sink_failure_witness :
  exists (a' : SecurityApp.t) (w' : World) (writer : VideoWriter.t),
    SecurityApp.update_preview (H := sample_cv) env_event_unopened
      (fst sample_on) (snd sample_on) = Some (a', w')
    /\ recording (a', w') = true
    /\ video_sinks w' = [writer]
    /\ VideoWriter.isOpened writer = false
    /\ ~ session_open (a', w').
Proof.
  destruct (session_creation_ignores_sink_failure (H := sample_cv)
              env_event_unopened dark_frame false true
              (fst sample_on) (snd sample_on)
              sample_on_reachable eq_refl eq_refl eq_refl eq_refl)
    as (a' & w' & writer & Htick & Hr & _ & Hs & _ & Ho & _ & _ & _ & _ & Hno).
  exists a', w', writer. repeat split; try assumption.
  apply Hno. reflexivity.
Defined.

(** C8 as stated fails: on the sample application, idle and monitoring,
    a voice event on a tick whose video writer does not open leaves the
    controller recording, with both flags raised and the unopened writer
    held. *)
Lemma sink_failure_still_starts_recording :
  SecurityApp.update_preview (H := sample_cv) env_event_unopened
    (fst sample_on) (snd sample_on)
  = Some (fst sample_unopened, snd sample_unopened)
  /\ writer_opened env_event_unopened = false
  /\ recording sample_on = false
  /\ recording sample_unopened = true
  /\ AudioManager.is_recording (SecurityApp.audio_manager (fst sample_unopened))
     = true
  /\ map VideoWriter.isOpened (video_sinks (snd sample_unopened)) = [false]
  /\ map VideoWriter.released (video_sinks (snd sample_unopened)) = [false].
Proof. vm_compute. repeat split. Qed.

(** ** Switching the detection mode *)

(** C10, as the code has it.  In every state, changing the detection
    method records the new choice in the configuration and clears the
    FastDifference reference frame; the background subtractor keeps
    whatever it has absorbed, and nothing else of the camera manager
    changes. *)
Theorem update_motion_method_resets_prev_frame_only
    (use_simple : bool) (a : SecurityApp.t) :
  let a' := SecurityApp.update_motion_method use_simple a in
  CameraManager.prev_frame (SecurityApp.camera_manager a') = None
  /\ CameraManager.background_subtractor (SecurityApp.camera_manager a')
     = CameraManager.background_subtractor (SecurityApp.camera_manager a)
  /\ Config.use_simple_motion_detection (SecurityApp.config a') = use_simple
  /\ SecurityApp.camera_manager a'
     = CameraManager.with_prev_frame None (SecurityApp.camera_manager a)
  /\ SecurityApp.audio_manager a' = SecurityApp.audio_manager a.
Proof.
  destruct a as [cfg cm am mon lmt lvt lvc].
  cbn. repeat split.
Qed.

(** C10 as stated fails: a subtractor that has absorbed a frame still
    holds it after the switch to FastDifference, where a freshly created
    one holds none. *)
Lemma update_motion_method_keeps_background :
  CameraManager.background_subtractor
    (SecurityApp.camera_manager (SecurityApp.init sample_config 640 480
                                   (fun _ => true) true)) = []
  /\ CameraManager.background_subtractor
       (SecurityApp.camera_manager
          (SecurityApp.update_motion_method true sample_background))
     = [dark_reference]
  /\ CameraManager.background_subtractor
       (SecurityApp.camera_manager
          (SecurityApp.update_motion_method true sample_background))
     <> [].
Proof.
  split; [reflexivity|]. split; [reflexivity|]. discriminate.
Qed.

(** * Further properties of the program *)

(** ** Opening and switching the camera *)



(** ** A session at the level of the managers *)

Lemma record_audio_appends (c : list Byte.byte) (am : AudioManager.t) :
  AudioManager.is_recording am = true ->
  is_Some (AudioManager.stream am) ->
  AudioManager.record_audio c am
  = AudioManager.with_frames (AudioManager.frames am ++ [c]) am.
Proof.
  intros Hrec Hst. unfold AudioManager.record_audio.
  rewrite Hrec, bool_decide_eq_true_2 by exact Hst. reflexivity.
Qed.

Lemma record_audio_fold (chunks : list (list Byte.byte)) (am : AudioManager.t) :
  AudioManager.is_recording am = true ->
  is_Some (AudioManager.stream am) ->
  fold_left (fun am c => AudioManager.record_audio c am) chunks am
  = AudioManager.with_frames (AudioManager.frames am ++ chunks) am.
Proof.
  revert am. induction chunks as [|c chunks IH]; intros am Hrec Hst.
  - cbn. rewrite app_nil_r. destruct am; reflexivity.
  - cbn [fold_left]. rewrite (record_audio_appends c am Hrec Hst).
    rewrite IH by (destruct am; assumption).
    destruct am; cbn. rewrite <- app_assoc. reflexivity.
Qed.

Lemma length_concat_sum (chunks : list (list Byte.byte)) :
  length (concat chunks) = fold_right Nat.add 0%nat (map length chunks).
Proof.
  induction chunks as [|c chunks IH]; [reflexivity|].
  cbn. rewrite length_app, IH. reflexivity.
Qed.

(** X3.  Audio round trip: with a stream open, [start_recording], one
    [record_audio] per chunk and [stop_recording] write exactly one wave
    file, mono, 2 bytes per sample, 16 kHz, whose data are the chunks in
    order, so that its byte count is the sum of the chunk sizes; whatever
    the buffer held before the start is discarded, and the manager ends
    idle with an empty buffer. *)
Theorem audio_session_round_trip (stamp : string)
    (chunks : list (list Byte.byte)) (w : World) (am : AudioManager.t) :
  is_Some (AudioManager.stream am) ->
  let started := AudioManager.start_recording stamp am in
  let recorded :=
    fold_left (fun am c => AudioManager.record_audio c am) chunks (snd started) in
  let stopped := AudioManager.stop_recording w recorded in
  fst stopped = Some (fst started)
  /\ wave_files (fst (snd stopped))
     = wave_files w ++ [WaveFile.Make (fst started) 1 2 16000 (concat chunks)]
  /\ video_sinks (fst (snd stopped)) = video_sinks w
  /\ length (concat chunks) = fold_right Nat.add 0%nat (map length chunks)
  /\ AudioManager.is_recording (snd (snd stopped)) = false
  /\ AudioManager.frames (snd (snd stopped)) = [].
Proof.
  intros Hst. cbn zeta.
  rewrite record_audio_fold;
    [| destruct am; reflexivity | destruct am; exact Hst].
  destruct am as [vde st arec vd aod fr smi acrf]. destruct w as [sinks waves].
  cbn. repeat split. apply length_concat_sum.
Qed.





(** X5.  Without a stream object [record_audio] keeps nothing: the
    session still ends by writing a wave file, and that file has no
    data. *)
Theorem audio_session_without_stream (stamp : string)
    (chunks : list (list Byte.byte)) (w : World) (am : AudioManager.t) :
  AudioManager.stream am = None ->
  let started := AudioManager.start_recording stamp am in
  let recorded :=
    fold_left (fun am c => AudioManager.record_audio c am) chunks (snd started) in
  wave_files (fst (snd (AudioManager.stop_recording w recorded)))
  = wave_files w ++ [WaveFile.Make (fst started) 1 2 16000 []].
Proof.
  intros Hst. cbn zeta.
  assert (Hfold : forall am0 : AudioManager.t,
             AudioManager.stream am0 = None ->
             fold_left (fun am c => AudioManager.record_audio c am) chunks am0 = am0).
  { induction chunks as [|c chunks IH]; intros am0 H0; [reflexivity|].
    cbn [fold_left]. unfold AudioManager.record_audio at 2. rewrite H0.
    rewrite andb_false_r. apply IH. exact H0. }
  rewrite Hfold by (destruct am; exact Hst).
  destruct am as [vde st arec vd aod fr smi acrf]. destruct w as [sinks waves].
  reflexivity.
Qed.

(** ** The detectors *)

(** X6.  [detect_voice] answers true only when voice detection is
    enabled, a stream object exists, the read returned a chunk that is
    not empty, and the energy of that chunk is above 1500. *)
Theorem detect_voice_true_only_if
    (am : AudioManager.t) (read : option (list Byte.byte)) :
  AudioManager.detect_voice am read = true ->
  AudioManager.voice_detection_enabled am = true
  /\ is_Some (AudioManager.stream am)
  /\ exists data : list Byte.byte,
       read = Some data /\ data <> [] /\ (1500 < energy data)%Q.
Proof.
  unfold AudioManager.detect_voice. intros Hv.
  destruct (AudioManager.voice_detection_enabled am); [|discriminate].
  destruct (bool_decide (is_Some (AudioManager.stream am))) eqn:Hst;
    [|discriminate].
  apply bool_decide_eq_true_1 in Hst. cbn in Hv.
  destruct read as [[|b data]|]; try discriminate.
  repeat split; try assumption.
  exists (b :: data). repeat split; [discriminate|].
  apply Qgtb_true. exact Hv.
Qed.

Lemma int16_le_range (lo hi : Byte.byte) : -32768 <= int16_le lo hi <= 32767.
Proof.
  unfold int16_le.
  pose proof (Byte.to_N_bounded lo). pose proof (Byte.to_N_bounded hi).
  destruct (Z.ltb_spec (Z.of_N (Byte.to_N lo) + 256 * Z.of_N (Byte.to_N hi)) 32768);
    lia.
Qed.

Lemma samples16_sum_bound (data : list Byte.byte) :
  0 <= fold_right Z.add 0 (map Z.abs (samples16 data))
    <= 32768 * Z.of_nat (length (samples16 data)).
Proof.
  induction data as [data IH] using (induction_ltof1 _ (@length _)).
  unfold ltof in IH.
  destruct data as [|lo [|hi rest]]; cbn [samples16 map fold_right length];
    try lia.
  pose proof (int16_le_range lo hi).
  specialize (IH rest ltac:(cbn; lia)). lia.
Qed.

Lemma quotient_within_scale (s n : Z) :
  0 <= s <= 32768 * n ->
  (0 <= inject_Z s / inject_Z n <= 32768)%Q.
Proof.
  intros [H0 H1].
  destruct (Z.eq_dec n 0) as [->|Hn].
  - assert (s = 0) by lia. subst s. split; discriminate.
  - assert (Hpos : (0 < inject_Z n)%Q).
    { change 0%Q with (inject_Z 0). rewrite <- Zlt_Qlt. lia. }
    split.
    + apply Qle_shift_div_l; [exact Hpos|].
      rewrite Qmult_0_l. change 0%Q with (inject_Z 0). rewrite <- Zle_Qle. exact H0.
    + apply Qle_shift_div_r; [exact Hpos|].
      change 32768%Q with (inject_Z 32768).
      rewrite <- inject_Z_mult, <- Zle_Qle. exact H1.
Qed.

(** X7.  On the scale of the samples: a 16-bit sample lies between
    -32768 and 32767, and the mean magnitude of any chunk lies between 0
    and 32768, which bounds the energy [detect_voice] compares with 1500
    on every chunk of even length. *)
Theorem mean_magnitude_within_scale (data : list Byte.byte) :
  (0 <= mean_magnitude data <= 32768)%Q
  /\ (Nat.Even (length data) -> data <> [] -> (0 <= energy data <= 32768)%Q)
  /\ Forall (fun x => -32768 <= x <= 32767) (samples16 data).
Proof.
  assert (Hmean : (0 <= mean_magnitude data <= 32768)%Q).
  { apply quotient_within_scale. apply samples16_sum_bound. }
  split; [exact Hmean|]. split.
  - intros Heven Hne. rewrite (energy_mean_magnitude data Heven Hne). exact Hmean.
  - clear Hmean.
    induction data as [data IH] using (induction_ltof1 _ (@length _)).
    unfold ltof in IH.
    destruct data as [|lo [|hi rest]]; cbn [samples16]; try constructor.
    + apply int16_le_range.
    + apply IH. cbn. lia.
Qed.


(** X8.  [detect_motion] raises in one situation only: FastDifference
    mode, a reference already stored, and a frame whose gray image has
    another size than the reference. *)
Theorem detect_motion_raises_iff `{OpenCV}
    (config : Config.t) (cm : CameraManager.t) (input : option frame) :
  CameraManager.detect_motion config cm input = None
  <-> exists (f : frame) (reference : gray),
        input = Some f
        /\ Config.use_simple_motion_detection config = true
        /\ CameraManager.prev_frame cm = Some reference
        /\ same_shape reference (GaussianBlur_21 (cvtColor_BGR2GRAY f)) = false.
Proof.
  unfold CameraManager.detect_motion. split.
  - intros Hd. destruct input as [f|]; [|discriminate].
    destruct (Config.use_simple_motion_detection config); [|discriminate].
    destruct (CameraManager.prev_frame cm) as [reference|]; [|discriminate].
    exists f, reference. repeat split.
    unfold absdiff in Hd. destruct (same_shape _ _); [discriminate|reflexivity].
  - intros (f & reference & -> & -> & -> & Hs).
    unfold absdiff. rewrite Hs. reflexivity.
Qed.

Lemma changed_pixels_none (l1 l2 : list Z) :
  Forall2 (fun a b => Z.abs (a - b) <= 25) l1 l2 ->
  filter (fun p => 25 < Z.abs (fst p - snd p)) (zip l1 l2) = [].
Proof.
  induction 1 as [|a b l1 l2 Hab _ IH]; [reflexivity|].
  cbn [zip zip_with]. rewrite filter_cons, decide_False by (cbn; lia). exact IH.
Qed.

(** X9.  Noise tolerance of FastDifference: with the sensitivity at
    most 30, a frame that differs from the stored reference by no more
    than 25 at every pixel reports no motion; in particular an unchanged
    scene does not. *)
Theorem detect_motion_ignores_small_differences `{OpenCV}
    (config : Config.t) (cm : CameraManager.t) (f : frame) (reference : gray) :
  Config.use_simple_motion_detection config = true ->
  CameraManager.prev_frame cm = Some reference ->
  CameraManager.motion_sensitivity cm <= 30 ->
  let g := GaussianBlur_21 (cvtColor_BGR2GRAY f) in
  same_shape reference g = true ->
  Forall2 (fun a b => Z.abs (a - b) <= 25) (pixels reference) (pixels g) ->
  exists cm' : CameraManager.t,
    CameraManager.detect_motion config cm (Some f) = Some (false, cm').
Proof.
  intros Hmode Hprev Hs g Hshape Hclose.
  unfold CameraManager.detect_motion. rewrite Hmode, Hprev. fold g.
  destruct (absdiff reference g) as [d|] eqn:Hd;
    [|rewrite (absdiff_same_shape _ _ Hshape) in Hd; discriminate].
  eexists. f_equal. f_equal.
  apply Qgtb_false.
  rewrite (movement_percentage_changed _ _ _ Hshape Hd).
  unfold changed_percentage, changed_pixels.
  rewrite (changed_pixels_none _ _ Hclose). cbn [length Z.of_nat].
  rewrite simple_threshold_eq.
  assert (E : (100 * inject_Z (Z.of_nat 0) / inject_Z (total_pixels g) == 0)%Q).
  { unfold Qdiv. change (inject_Z (Z.of_nat 0)) with 0%Q. ring. }
  rewrite E. unfold Qle. cbn. lia.
Qed.

Lemma changed_pixels_le (reference img : gray) :
  (changed_pixels reference img <= length (pixels img))%nat.
Proof.
  unfold changed_pixels.
  etransitivity; [apply length_filter|].
  rewrite length_zip_with. lia.
Qed.

Lemma changed_percentage_range (reference img : gray) :
  length (pixels img) = (shape0 img * shape1 img)%nat ->
  (0 <= changed_percentage reference img <= 100)%Q.
Proof.
  intros Hwf. pose proof (changed_pixels_le reference img) as Hle.
  unfold changed_percentage, total_pixels.
  rewrite <- Nat2Z.inj_mul, <- Hwf.
  set (c := changed_pixels reference img) in *.
  set (n := length (pixels img)) in *.
  destruct (Nat.eq_dec n 0%nat) as [E|E].
  - assert (Hc : c = 0%nat) by lia. rewrite E, Hc. split; discriminate.
  - assert (Hpos : (0 < inject_Z (Z.of_nat n))%Q).
    { change 0%Q with (inject_Z 0). rewrite <- Zlt_Qlt. lia. }
    split.
    + apply Qle_shift_div_l; [exact Hpos|].
      rewrite Qmult_0_l. change 100%Q with (inject_Z 100).
      rewrite <- inject_Z_mult. change 0%Q with (inject_Z 0).
      rewrite <- Zle_Qle. lia.
    + apply Qle_shift_div_r; [exact Hpos|].
      change 100%Q with (inject_Z 100).
      rewrite <- !inject_Z_mult, <- Zle_Qle. lia.
Qed.

(** X10.  For a frame whose buffer has as many samples as its shape
    says, the movement percentage [detect_motion] computes from the
    thresholded difference with the reference lies between 0 and 100. *)
Theorem movement_percentage_range (reference img d : gray) :
  absdiff reference img = Some d ->
  length (pixels img) = (shape0 img * shape1 img)%nat ->
  (0 <= movement_percentage (threshold_binary d 25 255) <= 100)%Q.
Proof.
  intros Hd Hwf.
  assert (Hs : same_shape reference img = true).
  { unfold absdiff in Hd. destruct (same_shape reference img);
      [reflexivity | discriminate]. }
  rewrite (movement_percentage_changed _ _ _ Hs Hd).
  apply changed_percentage_range. exact Hwf.
Qed.

(** X11.  A sensitivity above 30, which the scale of the settings panel
    (1 to 25) cannot produce but a configuration file can, makes the
    FastDifference threshold negative: every frame after the first, if it
    has the size of the reference and is not empty, reports motion. *)
Theorem detect_motion_always_fires_above_30 `{OpenCV}
    (config : Config.t) (cm : CameraManager.t) (f : frame) (reference : gray) :
  Config.use_simple_motion_detection config = true ->
  CameraManager.prev_frame cm = Some reference ->
  30 < CameraManager.motion_sensitivity cm ->
  let g := GaussianBlur_21 (cvtColor_BGR2GRAY f) in
  same_shape reference g = true ->
  0 < total_pixels g ->
  exists cm' : CameraManager.t,
    CameraManager.detect_motion config cm (Some f) = Some (true, cm').
Proof.
  intros Hmode Hprev Hs g Hshape Htotal.
  unfold CameraManager.detect_motion. rewrite Hmode, Hprev. fold g.
  destruct (absdiff reference g) as [d|] eqn:Hd;
    [|rewrite (absdiff_same_shape _ _ Hshape) in Hd; discriminate].
  eexists. f_equal. f_equal.
  apply Qgtb_true.
  rewrite (movement_percentage_changed _ _ _ Hshape Hd).
  apply Qlt_le_trans with (y := 0%Q).
  - rewrite simple_threshold_eq. unfold Qlt. cbn. lia.
  - unfold changed_percentage.
    apply Qle_shift_div_l.
    + change 0%Q with (inject_Z 0). rewrite <- Zlt_Qlt. exact Htotal.
    + rewrite Qmult_0_l. change 100%Q with (inject_Z 100).
      rewrite <- inject_Z_mult. change 0%Q with (inject_Z 0).
      rewrite <- Zle_Qle. lia.
Qed.

(** X12.  The two detection modes keep separate state.  A frame
    classified in FastDifference mode leaves the background subtractor
    as it was and stores a reference; one classified in background mode
    never raises, adds exactly that frame's gray image to what the
    subtractor has absorbed and leaves the FastDifference reference as
    it was. *)
Theorem detect_motion_modes_keep_separate_state `{OpenCV}
    (config : Config.t) (cm : CameraManager.t) (f : frame) :
  (Config.use_simple_motion_detection config = true ->
   forall (m : bool) (cm' : CameraManager.t),
     CameraManager.detect_motion config cm (Some f) = Some (m, cm') ->
     CameraManager.background_subtractor cm' = CameraManager.background_subtractor cm
     /\ is_Some (CameraManager.prev_frame cm'))
  /\ (Config.use_simple_motion_detection config = false ->
      exists (m : bool) (cm' : CameraManager.t),
        CameraManager.detect_motion config cm (Some f) = Some (m, cm')
        /\ CameraManager.prev_frame cm' = CameraManager.prev_frame cm
        /\ CameraManager.background_subtractor cm'
           = CameraManager.background_subtractor cm
             ++ [GaussianBlur_21 (cvtColor_BGR2GRAY f)]).
Proof.
  unfold CameraManager.detect_motion.
  destruct cm as [cam0 rec md fw fh ms od bs pf sci vw crf].
  split; intros Hmode; rewrite Hmode; cbn.
  - intros m cm' Hd. destruct pf as [prev|].
    + destruct (absdiff prev _); [|discriminate].
      injection Hd as _ <-. split; [reflexivity | eexists; reflexivity].
    + injection Hd as _ <-. split; [reflexivity | eexists; reflexivity].
  - eexists _, _. split; [reflexivity|]. split; reflexivity.
Qed.

(** ** More on single ticks *)


(** X14.  With monitoring off a tick changes nothing, whatever the
    camera and the microphone deliver: no detector runs, no time stamp
    moves, nothing is recorded. *)
Theorem update_preview_not_monitoring `{OpenCV}
    (env : TickEnv) (a : SecurityApp.t) (w : World) :
  SecurityApp.monitoring a = false ->
  SecurityApp.update_preview env a w = Some (a, w)
  /\ verdicts env a = None.
Proof.
  intros Hmon. unfold SecurityApp.update_preview, verdicts. rewrite Hmon.
  destruct (CameraManager.camera (SecurityApp.camera_manager a));
    destruct (camera_read env) as [[] [f|]]; split; reflexivity.
Qed.

(** X15.  From the Idle state a tick starts a session exactly when one
    of the detectors reports on it; when neither does, the store of
    sinks, the audio manager and both activity time stamps are left as
    they were. *)
Theorem idle_tick_starts_iff_activity `{OpenCV}
    (env : TickEnv) (m v : bool) (a : SecurityApp.t) (w : World) :
  reachable (a, w) ->
  recording (a, w) = false ->
  verdicts env a = Some (m, v) ->
  exists (a' : SecurityApp.t) (w' : World),
    SecurityApp.update_preview env a w = Some (a', w')
    /\ recording (a', w') = m || v
    /\ (m || v = false ->
        w' = w
        /\ SecurityApp.audio_manager a' = SecurityApp.audio_manager a
        /\ SecurityApp.last_motion_time a' = SecurityApp.last_motion_time a
        /\ SecurityApp.last_voice_time a' = SecurityApp.last_voice_time a
        /\ ~ session_exists (a', w')).
Proof.
  intros Hreach Hrec Hverd.
  pose proof (reachable_inv _ Hreach) as Hinv.
  assert (Hdata :
    exists (a' : SecurityApp.t) (w' : World),
      SecurityApp.update_preview env a w = Some (a', w')
      /\ recording (a', w') = m || v
      /\ (m || v = false ->
          w' = w
          /\ SecurityApp.audio_manager a' = SecurityApp.audio_manager a
          /\ SecurityApp.last_motion_time a' = SecurityApp.last_motion_time a
          /\ SecurityApp.last_voice_time a' = SecurityApp.last_voice_time a)).
  { clear Hreach. unfold verdicts in Hverd. unfold SecurityApp.update_preview.
    destruct (CameraManager.camera (SecurityApp.camera_manager a)) as [cam|];
      [|discriminate].
    destruct (camera_read env) as [[] [f|]]; try discriminate.
    destruct (SecurityApp.monitoring a); [|discriminate].
    destruct (SecurityApp.run_detectors env f a) as [[[m0 v0] a1]|] eqn:Hdet;
      [|discriminate].
    injection Hverd as -> ->.
    apply run_detectors_state in Hdet as (b & p & c & ->).
    destruct a as [cfg cm am mon lmt lvt lvc]. destruct w as [sinks waves].
    destruct cm as [cam0 rec md fw fh ms od bs pf sci vw crf].
    destruct am as [vde st arec vd aod fr smi acrf].
    destruct Hinv as (Harec & Hmd & Hvd & Hw).
    cbn in Hrec, Harec, Hmd, Hvd, Hw. subst rec arec md vd.
    unfold SecurityApp.update_indicators, SecurityApp.handle_recording,
      SecurityApp.update_recording_state, SecurityApp.should_continue,
      CameraManager.start_recording, AudioManager.start_recording,
      CameraManager.record_frame, AudioManager.record_audio,
      CameraManager.on_video_writer, recording.
    destruct m, v; cbn; (eexists _, _; split; [reflexivity|]); cbn;
      split; try reflexivity; try discriminate.
    intros _. repeat split. }
  destruct Hdata as (a' & w' & Htick & Hr & Hquiet).
  pose proof (update_preview_inv env a a' w w' Hinv Htick) as Hinv'.
  destruct (inv_session _ Hinv') as (Hsess & _ & _).
  exists a', w'. split; [exact Htick|]. split; [exact Hr|].
  intros Hno. destruct (Hquiet Hno) as (Hw & Ha & Hm & Hv).
  repeat split; try assumption.
  rewrite Hsess, Hr, Hno. discriminate.
Qed.


(** X16.  The voice detector is throttled on the clock: a tick whose
    reading is no more than 0.3 above the time of the last check reports
    no voice whatever the microphone delivers and leaves that time alone;
    a later one asks [detect_voice] and moves the time of the last check
    to its own reading. *)
Theorem voice_check_throttled `{OpenCV}
    (env : TickEnv) (m v : bool) (a a' : SecurityApp.t) (w w' : World) :
  SecurityApp.update_preview env a w = Some (a', w') ->
  verdicts env a = Some (m, v) ->
  ((time_check env - SecurityApp.last_voice_check_time a <= 3 # 10)%Q ->
   v = false
   /\ SecurityApp.last_voice_check_time a' = SecurityApp.last_voice_check_time a)
  /\ ((3 # 10 < time_check env - SecurityApp.last_voice_check_time a)%Q ->
      v = AudioManager.detect_voice (SecurityApp.audio_manager a) (voice_read env)
      /\ SecurityApp.last_voice_check_time a' = time_check env).
Proof.
  unfold SecurityApp.update_preview, verdicts. intros Hrun Hverd.
  destruct (CameraManager.camera (SecurityApp.camera_manager a)) as [cam|];
    [|discriminate].
  destruct (camera_read env) as [[] [f|]]; try discriminate.
  destruct (SecurityApp.monitoring a); [|discriminate].
  unfold SecurityApp.run_detectors in *.
  destruct (CameraManager.detect_motion _ _ _) as [[m0 cm1]|] eqn:Hdet;
    [|discriminate].
  apply detect_motion_state in Hdet as (b & p & ->).
  destruct a as [cfg cm am mon lmt lvt lvc]. destruct w as [sinks waves].
  destruct cm as [cam0 rec md fw fh ms od bs pf sci vw crf].
  destruct am as [vde st arec vd aod fr smi acrf].
  cbn [SecurityApp.last_voice_check_time SecurityApp.with_camera_manager
       SecurityApp.audio_manager] in *.
  destruct (Qgtb (time_check env - lvc) (3 # 10)) eqn:Hq;
    cbn [option_map fst] in Hverd; injection Hverd as -> <-.
  - apply Qgtb_true in Hq. split; intros Hcmp.
    + exfalso. exact (Qlt_not_le _ _ Hq Hcmp).
    + split; [reflexivity|].
      unfold SecurityApp.update_indicators, SecurityApp.handle_recording,
        SecurityApp.update_recording_state, CameraManager.start_recording,
        AudioManager.start_recording, CameraManager.stop_recording,
        AudioManager.stop_recording in Hrun.
      cbn in Hrun.
      destruct m, (AudioManager.detect_voice _ _), rec; cbn in Hrun;
        try (destruct (SecurityApp.should_continue _ _); cbn in Hrun);
        try (destruct arec; cbn in Hrun);
        injection Hrun as <- _; reflexivity.
  - apply Qgtb_false in Hq. split; intros Hcmp.
    + split; [reflexivity|].
      unfold SecurityApp.update_indicators, SecurityApp.handle_recording,
        SecurityApp.update_recording_state, CameraManager.start_recording,
        AudioManager.start_recording, CameraManager.stop_recording,
        AudioManager.stop_recording in Hrun.
      cbn in Hrun.
      destruct m, rec; cbn in Hrun;
        try (destruct (SecurityApp.should_continue _ _); cbn in Hrun);
        try (destruct arec; cbn in Hrun);
        injection Hrun as <- _; reflexivity.
    + exfalso. exact (Qlt_not_le _ _ Hcmp Hq).
Qed.

(** ** What the tick loop keeps on disk *)




Lemma update_preview_books `{OpenCV}
    (env : TickEnv) (a a' : SecurityApp.t) (w w' : World) :
  controller_inv (a, w) -> session_books (a, w) ->
  SecurityApp.update_preview env a w = Some (a', w') ->
  session_books (a', w').
Proof.
  intros Hinv Hbooks Hrun. unfold SecurityApp.update_preview in Hrun.
  destruct (CameraManager.camera (SecurityApp.camera_manager a)) as [cam|] eqn:Hcam;
    [|injection Hrun as <- <-; exact Hbooks].
  destruct (camera_read env) as [[] [f|]];
    try (injection Hrun as <- <-; exact Hbooks).
  destruct (SecurityApp.monitoring a) eqn:Hmon;
    [|injection Hrun as <- <-; exact Hbooks].
  destruct (SecurityApp.run_detectors env f a) as [[[m v] a1]|] eqn:Hdet;
    [|discriminate].
  apply run_detectors_state in Hdet as (b & p & c & ->).
  destruct a as [cfg cm am mon lmt lvt lvc]. destruct w as [sinks waves].
  destruct cm as [cam0 rec md fw fh ms od bs pf sci vw crf].
  destruct am as [vde st arec vd aod fr smi acrf].
  destruct Hinv as (Harec & Hmd & Hvd & Hw).
  destruct Hbooks as (_ & _ & Hlen).
  cbn in Harec, Hmd, Hvd, Hw, Hcam, Hmon, Hlen. subst arec md vd cam0 mon.
  unfold SecurityApp.update_indicators, SecurityApp.handle_recording,
    SecurityApp.update_recording_state, SecurityApp.should_continue,
    CameraManager.start_recording, AudioManager.start_recording,
    CameraManager.stop_recording, AudioManager.stop_recording,
    CameraManager.record_frame, AudioManager.record_audio,
    CameraManager.on_video_writer in Hrun.
  cbn in Hrun.
  destruct rec; cbn in Hw.
  - destruct Hw as (pre & writer & -> & -> & Hlive & Hpre).
    destruct m, v; cbn in Hrun;
      try (destruct (Qltb _ _); cbn in Hrun);
      rewrite alter_last in Hrun; injection Hrun as <- <-;
      unfold session_books, recording; cbn;
      rewrite !length_app in *; cbn in *;
      (repeat split; first [discriminate | reflexivity | eexists; reflexivity | assumption | lia | rewrite ?length_app; cbn; lia]).
  - destruct m, v; cbn in Hrun; rewrite ?alter_last in Hrun;
      injection Hrun as <- <-;
      unfold session_books, recording; cbn;
      rewrite ?length_app in *; cbn in *;
      (repeat split; first [discriminate | reflexivity | eexists; reflexivity | assumption | lia | rewrite ?length_app; cbn; lia]).
Qed.

Lemma toggle_monitoring_books (a : SecurityApp.t) (w : World) :
  controller_inv (a, w) -> session_books (a, w) ->
  session_books (SecurityApp.toggle_monitoring a w).
Proof.
  intros (Harec & _ & _ & Hw) (Hmon & Hcam & Hlen).
  destruct a as [cfg cm am mon lmt lvt lvc]. destruct w as [sinks waves].
  destruct cm as [cam0 rec md fw fh ms od bs pf sci vw crf].
  destruct am as [vde st arec vd aod fr smi acrf].
  unfold recording in *. cbn in Harec, Hw, Hmon, Hcam, Hlen. subst arec.
  unfold SecurityApp.toggle_monitoring, CameraManager.stop_recording,
    AudioManager.stop_recording, CameraManager.on_video_writer.
  destruct mon, rec; cbn; unfold session_books, recording; cbn;
    try (specialize (Hmon eq_refl); discriminate);
    cbn in Hw; try (destruct Hw as (pre & writer & -> & -> & _ & _));
    rewrite ?alter_last, ?length_app in *; cbn in *;
    (repeat split; first [discriminate | reflexivity | eexists; reflexivity | assumption | lia | rewrite ?length_app; cbn; lia]).
Qed.

Lemma reachable_books `{OpenCV} (s : SecurityApp.t * World) :
  reachable s -> session_books s.
Proof.
  induction 1 as [config width height device_opens stream_opens
                 | s s' Hs IH Hstep].
  - unfold session_books, recording, SecurityApp.init, AudioManager.start_stream,
      CameraManager.open_camera.
    destruct stream_opens; cbn; (repeat split; [discriminate | eexists; reflexivity]).
  - pose proof (reachable_inv s Hs) as Hinv.
    destruct Hstep as [env a a' w w' Hrun | a w].
    + exact (update_preview_books env a a' w w' Hinv IH Hrun).
    + exact (toggle_monitoring_books a w Hinv IH).
Qed.




(** ** A session over several ticks *)




(** X20.  Switching monitoring off during a session ends the session
    whole: the video writer is released, the audio buffer is written to
    a wave file and emptied, both recording flags fall and no session is
    left. *)
Theorem toggle_monitoring_off_ends_session `{OpenCV}
    (a : SecurityApp.t) (w : World) :
  reachable (a, w) ->
  recording (a, w) = true ->
  let s' := SecurityApp.toggle_monitoring a w in
  SecurityApp.monitoring (fst s') = false
  /\ recording s' = false
  /\ AudioManager.is_recording (SecurityApp.audio_manager (fst s')) = false
  /\ AudioManager.frames (SecurityApp.audio_manager (fst s')) = []
  /\ live_writers (snd s') = []
  /\ (exists wf : WaveFile.t,
        wave_files (snd s') = wave_files w ++ [wf]
        /\ WaveFile.data wf
           = concat (AudioManager.frames (SecurityApp.audio_manager a)))
  /\ ~ session_exists s'.
Proof.
  intros Hreach Hrec. cbn zeta.
  pose proof (reachable_inv _ Hreach) as Hinv.
  pose proof (reachable_books _ Hreach) as (Hmon & _ & _).
  specialize (Hmon Hrec).
  pose proof (toggle_monitoring_inv a w Hinv) as Hinv'.
  destruct (inv_session _ Hinv') as (Hsess & _ & _).
  assert (Hdata :
    SecurityApp.monitoring (fst (SecurityApp.toggle_monitoring a w)) = false
    /\ recording (SecurityApp.toggle_monitoring a w) = false
    /\ AudioManager.is_recording
         (SecurityApp.audio_manager (fst (SecurityApp.toggle_monitoring a w))) = false
    /\ AudioManager.frames
         (SecurityApp.audio_manager (fst (SecurityApp.toggle_monitoring a w))) = []
    /\ (exists wf : WaveFile.t,
          wave_files (snd (SecurityApp.toggle_monitoring a w)) = wave_files w ++ [wf]
          /\ WaveFile.data wf
             = concat (AudioManager.frames (SecurityApp.audio_manager a)))).
  { destruct Hinv as (Harec & _ & _ & Hw).
    destruct a as [cfg cm am mon lmt lvt lvc]. destruct w as [sinks waves].
    destruct cm as [cam0 rec md fw fh ms od bs pf sci vw crf].
    destruct am as [vde st arec vd aod fr smi acrf].
    unfold recording in *. cbn in Hrec, Harec, Hmon, Hw. subst rec arec mon.
    cbn in Hw. destruct Hw as (pre & wr & -> & -> & _ & _).
    unfold SecurityApp.toggle_monitoring, CameraManager.stop_recording,
      AudioManager.stop_recording, CameraManager.on_video_writer.
    cbn. do 4 (split; [reflexivity|]).
    exists (WaveFile.Make (default EmptyString acrf) 1 2 16000 (concat fr)).
    split; reflexivity. }
  destruct Hdata as (H1 & H2 & H3 & H4 & H5).
  repeat split; try assumption.
  - destruct Hinv' as (_ & _ & _ & Hw'). unfold recording in H2.
    rewrite H2 in Hw'. apply filter_all_released. exact Hw'.
  - rewrite Hsess, H2. discriminate.
Qed.


(** ** The settings callbacks *)

(** X21.  [update_motion_sensitivity] truncates the value of the scale
    to an integer and stores it in the manager and in the configuration
    alike.  For a value within the scale's range, 1 to 25, the integer
    stays within 1 to 25, so the FastDifference threshold stays between
    1.0 and 5.8 and the background one between 0.5 and 2.9. *)
Theorem update_motion_sensitivity_in_range (value : Q) (a : SecurityApp.t) :
  (1 <= value <= 25)%Q ->
  let a' := SecurityApp.update_motion_sensitivity value a in
  let s := CameraManager.motion_sensitivity (SecurityApp.camera_manager a') in
  Config.motion_sensitivity (SecurityApp.config a') = s
  /\ 1 <= s <= 25
  /\ (inject_Z s <= value)%Q /\ (value < inject_Z (s + 1))%Q
  /\ (1 <= simple_threshold s <= 58 # 10)%Q
  /\ (5 # 10 <= background_threshold s <= 29 # 10)%Q.
Proof.
  intros [Hlo Hhi]. cbn zeta.
  destruct a as [cfg cm am mon lmt lvt lvc].
  destruct cm as [cam0 rec md fw fh ms od bs pf sci vw crf].
  cbn. unfold SecurityApp.py_int.
  destruct value as [n d]. cbn [Qnum Qden].
  unfold Qle in Hlo, Hhi. cbn in Hlo, Hhi.
  assert (Hn : 0 <= n) by lia.
  rewrite Z.quot_div_nonneg by lia.
  pose proof (Z.div_mod n (Z.pos d) ltac:(lia)) as Hdm.
  pose proof (Z.mod_pos_bound n (Z.pos d) ltac:(lia)) as Hmod.
  set (q := n / Z.pos d) in *.
  assert (Hq : 1 <= q <= 25) by nia.
  split; [reflexivity|]. split; [exact Hq|].
  split; [unfold Qle; cbn; nia|]. split; [unfold Qlt; cbn; nia|].
  rewrite simple_threshold_eq.
  unfold background_threshold, Qle, Qdiv, Qmult, Qinv, inject_Z. cbn.
  repeat split; lia.
Qed.

Lemma run_detectors_voice_disabled `{OpenCV} (env : TickEnv) (f : frame)
    (a a1 : SecurityApp.t) (m v : bool) :
  AudioManager.voice_detection_enabled (SecurityApp.audio_manager a) = false ->
  SecurityApp.run_detectors env f a = Some (m, v, a1) ->
  v = false.
Proof.
  intros Hoff. unfold SecurityApp.run_detectors.
  destruct (CameraManager.detect_motion _ _ _) as [[m0 cm1]|]; [|discriminate].
  destruct (Qgtb _ _); intros Hrun; injection Hrun as _ <- _; [|reflexivity].
  unfold AudioManager.detect_voice.
  destruct a; cbn in Hoff |- *. rewrite Hoff. reflexivity.
Qed.

(** X22.  Once voice detection has been switched off, no tick reports
    voice, whatever the microphone delivers and whatever the clock
    reads. *)
Theorem toggle_voice_detection_off_silences `{OpenCV}
    (env : TickEnv) (a : SecurityApp.t) (m v : bool) :
  verdicts env (SecurityApp.toggle_voice_detection false a) = Some (m, v) ->
  v = false
  /\ Config.voice_detection_enabled
       (SecurityApp.config (SecurityApp.toggle_voice_detection false a)) = false.
Proof.
  assert (Hoff : AudioManager.voice_detection_enabled
                   (SecurityApp.audio_manager
                      (SecurityApp.toggle_voice_detection false a)) = false)
    by (destruct a; reflexivity).
  assert (Hcfg : Config.voice_detection_enabled
                   (SecurityApp.config
                      (SecurityApp.toggle_voice_detection false a)) = false)
    by (destruct a; reflexivity).
  revert Hoff Hcfg. generalize (SecurityApp.toggle_voice_detection false a).
  intros a' Hoff Hcfg Hverd. split; [|exact Hcfg].
  unfold verdicts in Hverd.
  destruct (CameraManager.camera (SecurityApp.camera_manager a')); [|discriminate].
  destruct (camera_read env) as [[] [f|]]; try discriminate.
  destruct (SecurityApp.monitoring a'); [|discriminate].
  destruct (SecurityApp.run_detectors env f a') as [[[m0 v0] a1]|] eqn:Hdet;
    [|discriminate].
  injection Hverd as _ <-.
  exact (run_detectors_voice_disabled env f a' a1 m0 v0 Hoff Hdet).
Qed.

Lemma eqb_other (r s : string) : r <> s -> String.eqb r s = false.
Proof. intros Hne. apply String.eqb_neq. exact Hne. Qed.

(** X23.  The three resolution tiers give the same frame size at start
    up and in [update_video_quality], and the value [__init__] leaves in
    the configuration is always one of them.  On any other value the two
    differ: start up falls back to 640 x 480, [update_video_quality] to
    1920 x 1080. *)
Theorem frame_size_tiers (stored : option string) (r : string) :
  let r0 := SecurityApp.sanitize_video_resolution stored in
  CameraManager.init_frame_size r0 = SecurityApp.quality_frame_size r0
  /\ (r0 = "480p" \/ r0 = "720p" \/ r0 = "1080p")%string
  /\ (r <> "480p" -> r <> "720p" -> r <> "1080p" ->
      CameraManager.init_frame_size r = (640, 480)
      /\ SecurityApp.quality_frame_size r = (1920, 1080))%string.
Proof.
  cbn zeta. split; [|split].
  - unfold SecurityApp.sanitize_video_resolution.
    destruct stored as [s|]; [|reflexivity].
    destruct (String.eqb_spec s "480p") as [->|H1]; [reflexivity|].
    destruct (String.eqb_spec s "720p") as [->|H2]; [reflexivity|].
    destruct (String.eqb_spec s "1080p") as [->|H3]; reflexivity.
  - unfold SecurityApp.sanitize_video_resolution.
    destruct stored as [s|]; [|auto].
    destruct (String.eqb_spec s "480p") as [->|H1]; [auto|].
    destruct (String.eqb_spec s "720p") as [->|H2]; [auto|].
    destruct (String.eqb_spec s "1080p") as [->|H3]; auto.
  - intros H1 H2 H3.
    unfold CameraManager.init_frame_size, SecurityApp.quality_frame_size.
    rewrite !eqb_other by assumption. split; reflexivity.
Qed.

(** X24.  [update_video_quality] sets the frame size of its tier and
    reopens the camera on the index already selected.  It keeps the
    FastDifference reference and the background subtractor, taken at the
    previous size, ends the camera manager's recording and leaves the
    audio manager and the wave files as they were. *)
Theorem update_video_quality_effect (device_opens : Z -> bool)
    (resolution : string) (a : SecurityApp.t) (w : World) :
  let s' := SecurityApp.update_video_quality device_opens resolution a w in
  let cm := SecurityApp.camera_manager a in
  let cm' := SecurityApp.camera_manager (fst s') in
  (CameraManager.frame_width cm', CameraManager.frame_height cm')
  = SecurityApp.quality_frame_size resolution
  /\ CameraManager.prev_frame cm' = CameraManager.prev_frame cm
  /\ CameraManager.background_subtractor cm' = CameraManager.background_subtractor cm
  /\ CameraManager.selected_camera_index cm' = CameraManager.selected_camera_index cm
  /\ Config.selected_camera_index (SecurityApp.config (fst s'))
     = CameraManager.selected_camera_index cm
  /\ CameraManager.is_recording cm' = false
  /\ SecurityApp.audio_manager (fst s') = SecurityApp.audio_manager a
  /\ wave_files (snd s') = wave_files w.
Proof.
  destruct a as [cfg cm am mon lmt lvt lvc]. destruct w as [sinks waves].
  destruct cm as [cam0 rec md fw fh ms od bs pf sci vw crf].
  unfold SecurityApp.update_video_quality, CameraManager.set_camera,
    CameraManager.stop_recording, CameraManager.on_video_writer,
    CameraManager.open_camera.
  destruct (SecurityApp.quality_frame_size resolution) as [width height].
  destruct rec; cbn; try destruct vw; cbn; repeat split.
Qed.

(** X25.  [set_microphone] records the requested index in the manager
    and in the configuration whether or not the stream opens, writes the
    buffer of a recording in progress to a wave file, and never leaves
    the previous stream open: afterwards the stream is a fresh one on the
    requested device, or the previous one closed, or still missing.  It
    touches no video writer. *)
Theorem set_microphone_effect (opens : bool) (mic_index : option Z)
    (config : Config.t) (w : World) (am : AudioManager.t) :
  let '(ok, (config', w', am')) :=
    AudioManager.set_microphone opens mic_index config w am in
  ok = opens
  /\ AudioManager.selected_microphone_index am' = mic_index
  /\ Config.selected_microphone_index config' = mic_index
  /\ AudioManager.is_recording am' = false
  /\ video_sinks w' = video_sinks w
  /\ wave_files w'
     = wave_files w
       ++ (if AudioManager.is_recording am
           then [WaveFile.Make
                   (default EmptyString (AudioManager.current_recording_file am))
                   1 2 16000 (concat (AudioManager.frames am))]
           else [])
  /\ AudioManager.stream am'
     = (if opens then Some (Stream.Make mic_index false)
        else match AudioManager.stream am with
             | Some s => Some (Stream.Make (Stream.input_device_index s) true)
             | None => None
             end).
Proof.
  destruct am as [vde st arec vd aod fr smi acrf]. destruct w as [sinks waves].
  unfold AudioManager.set_microphone, AudioManager.stop_recording,
    AudioManager.stop_stream, AudioManager.start_stream.
  destruct arec, st, opens; cbn; rewrite ?app_nil_r; repeat split.
Qed.

(** ** Loading the configuration *)

Lemma setdefault_lookup (key : string) (value : json)
    (config : gmap string json) (k : string) :
  ConfigManager.setdefault key value config !! k
  = match config !! k with
    | Some v => Some v
    | None => if decide (k = key) then Some value else None
    end.
Proof.
  unfold ConfigManager.setdefault.
  destruct (config !! key) as [v|] eqn:Hkey.
  - destruct (config !! k) as [v'|] eqn:Hk; [reflexivity|].
    destruct (decide (k = key)) as [->|]; [congruence|reflexivity].
  - destruct (decide (k = key)) as [->|Hne].
    + rewrite lookup_insert_eq, Hkey. reflexivity.
    + rewrite lookup_insert_ne by congruence.
      destruct (config !! k); reflexivity.
Qed.

(** X26.  [load_config] completes the dictionary of an older file with
    the three keys [use_simple_motion_detection], [video_resolution] and
    [selected_microphone_index], at their defaults, and with nothing
    else: every key of the file keeps its value, no other key appears,
    and loading what was loaded changes nothing.  When the file cannot
    be read the default configuration is the answer. *)
Theorem load_config_adds_three_keys (documents : string)
    (config : gmap string json) :
  let loaded := ConfigManager.load_config documents (Some config) in
  (forall (k : string) (v : json), config !! k = Some v -> loaded !! k = Some v)
  /\ dom loaded
     = dom config
       ∪ {["use_simple_motion_detection"; "video_resolution";
           "selected_microphone_index"]}%string
  /\ (config !! "use_simple_motion_detection"%string = None ->
      loaded !! "use_simple_motion_detection"%string = Some (JBool true))
  /\ (config !! "video_resolution"%string = None ->
      loaded !! "video_resolution"%string = Some (JString "480p"))
  /\ (config !! "selected_microphone_index"%string = None ->
      loaded !! "selected_microphone_index"%string = Some JNull)
  /\ ConfigManager.load_config documents (Some loaded) = loaded
  /\ ConfigManager.load_config documents None
     = ConfigManager.create_default_config documents.
Proof.
  cbn zeta. unfold ConfigManager.load_config.
  assert (Hlook : forall k : string,
    ConfigManager.setdefault "selected_microphone_index" JNull
      (ConfigManager.setdefault "video_resolution" (JString "480p")
         (ConfigManager.setdefault "use_simple_motion_detection" (JBool true)
            config)) !! k
    = match config !! k with
      | Some v => Some v
      | None =>
          if decide (k = "use_simple_motion_detection"%string) then Some (JBool true)
          else if decide (k = "video_resolution"%string) then Some (JString "480p")
          else if decide (k = "selected_microphone_index"%string) then Some JNull
          else None
      end).
  { intros k. rewrite !setdefault_lookup.
    destruct (config !! k); [reflexivity|].
    repeat case_decide; try reflexivity; congruence. }
  split; [|split; [|split; [|split; [|split; [|split]]]]].
  - intros k v Hk. rewrite Hlook, Hk. reflexivity.
  - apply set_eq. intros k.
    rewrite elem_of_dom, Hlook, elem_of_union, elem_of_dom.
    rewrite !elem_of_union, !elem_of_singleton.
    destruct (config !! k) as [v|].
    + split; [intros _; left; eexists; reflexivity | intros _; eexists; reflexivity].
    + repeat case_decide; subst; split; intros Hx;
        try (eexists; reflexivity); try tauto;
        try (destruct Hx as [x Hx]; discriminate);
        destruct Hx as [[x Hx]|[[Hx|Hx]|Hx]]; try discriminate; congruence.
  - intros Hnone. rewrite Hlook, Hnone. reflexivity.
  - intros Hnone. rewrite Hlook, Hnone. reflexivity.
  - intros Hnone. rewrite Hlook, Hnone. reflexivity.
  - apply map_eq. intros k. do 3 rewrite setdefault_lookup.
    rewrite Hlook.
    destruct (config !! k); [reflexivity|].
    repeat case_decide; try reflexivity; congruence.
  - reflexivity.
Qed.

Lemma load_config_lookup (documents : string) (config : gmap string json)
    (k : string) :
  ConfigManager.load_config documents (Some config) !! k
  = match config !! k with
    | Some v => Some v
    | None =>
        if decide (k = "use_simple_motion_detection"%string) then Some (JBool true)
        else if decide (k = "video_resolution"%string) then Some (JString "480p")
        else if decide (k = "selected_microphone_index"%string) then Some JNull
        else None
    end.
Proof.
  unfold ConfigManager.load_config. rewrite !setdefault_lookup.
  destruct (config !! k); [reflexivity|].
  repeat case_decide; try reflexivity; congruence.
Qed.

(** X27.  The default configuration reads as the record the managers
    start from.  A file that lacks one of the keys the program
    subscripts ([output_directory], [motion_sensitivity],
    [voice_detection_enabled], [post_detection_record_time]) still lacks
    it after [load_config], so that reading it fails; a file that lacks
    [use_simple_motion_detection] or [selected_microphone_index] reads as
    FastDifference mode and the default microphone. *)
Theorem config_of_loaded_dict (documents : string) (config : gmap string json) :
  config_of_dict (ConfigManager.load_config documents None)
  = Some (Config.default documents)
  /\ (forall k : string,
        (k = "output_directory" \/ k = "motion_sensitivity"
         \/ k = "voice_detection_enabled" \/ k = "post_detection_record_time")%string ->
        config !! k = None ->
        ConfigManager.load_config documents (Some config) !! k = None
        /\ config_of_dict (ConfigManager.load_config documents (Some config)) = None)
  /\ (forall c : Config.t,
        config_of_dict (ConfigManager.load_config documents (Some config)) = Some c ->
        (config !! "use_simple_motion_detection"%string = None ->
         Config.use_simple_motion_detection c = true)
        /\ (config !! "selected_microphone_index"%string = None ->
            Config.selected_microphone_index c = None)).
Proof.
  split; [|split].
  - reflexivity.
  - intros k Hk Hnone.
    assert (Hl : ConfigManager.load_config documents (Some config) !! k = None).
    { rewrite load_config_lookup, Hnone.
      destruct Hk as [-> | [-> | [-> | ->]]]; reflexivity. }
    split; [exact Hl|].
    unfold config_of_dict.
    destruct Hk as [-> | [-> | [-> | ->]]];
      repeat case_match; try reflexivity; congruence.
  - intros c Hc.
    pose proof (load_config_lookup documents config
                  "use_simple_motion_detection") as Hs.
    pose proof (load_config_lookup documents config
                  "selected_microphone_index") as Hm.
    unfold config_of_dict in Hc.
    split; intros Hnone.
    + rewrite Hnone in Hs. rewrite decide_True in Hs by reflexivity.
      rewrite Hs in Hc.
      repeat case_match; try discriminate; injection Hc as <-; reflexivity.
    + rewrite Hnone in Hm. rewrite decide_False, decide_False, decide_True in Hm
        by (reflexivity || discriminate).
      rewrite Hm in Hc.
      repeat case_match; try discriminate; injection Hc as <-; reflexivity.
Qed.

(** ** The further properties on the samples *)

Lemma reachable_pair `{OpenCV} (s : SecurityApp.t * World) :
  reachable s -> reachable (fst s, snd s).
Proof. destruct s. exact (fun Hs => Hs). Qed.

Lemma audio_session_round_trip_witness :
  wave_files
    (fst (snd (AudioManager.stop_recording empty_world
                 (fold_left (fun am c => AudioManager.record_audio c am)
                            [chunk_1600; chunk_quiet]
                            (snd (AudioManager.start_recording "t" sample_audio))))))
  = wave_files empty_world
    ++ [WaveFile.Make (fst (AudioManager.start_recording "t" sample_audio))
                      1 2 16000 (concat [chunk_1600; chunk_quiet])].
Proof.
  assert (Hst : is_Some (AudioManager.stream sample_audio))
    by (eexists; reflexivity).
  exact (proj1 (proj2 (audio_session_round_trip "t" [chunk_1600; chunk_quiet]
                         empty_world sample_audio Hst))).
Defined.

Lemma audio_session_without_stream_witness :
  wave_files
    (fst (snd (AudioManager.stop_recording empty_world
                 (fold_left (fun am c => AudioManager.record_audio c am)
                            [chunk_1600]
                            (snd (AudioManager.start_recording "t"
                                    (AudioManager.init sample_config)))))))
  = wave_files empty_world
    ++ [WaveFile.Make
          (fst (AudioManager.start_recording "t" (AudioManager.init sample_config)))
          1 2 16000 []].
Proof.
  exact (audio_session_without_stream "t" [chunk_1600] empty_world
           (AudioManager.init sample_config) eq_refl).
Defined.

Lemma detect_voice_true_only_if_witness :
  exists data : list Byte.byte,
    Some chunk_1600 = Some data /\ data <> [] /\ (1500 < energy data)%Q.
Proof.
  assert (Hv : AudioManager.detect_voice sample_audio (Some chunk_1600) = true)
    by (vm_compute; reflexivity).
  exact (proj2 (proj2 (detect_voice_true_only_if sample_audio (Some chunk_1600) Hv))).
Defined.

Lemma mean_magnitude_within_scale_witness :
  (0 <= energy chunk_1600 <= 32768)%Q.
Proof.
  apply (proj1 (proj2 (mean_magnitude_within_scale chunk_1600))).
  - exists 2%nat. reflexivity.
  - discriminate.
Defined.

Lemma detect_motion_raises_iff_witness :
  CameraManager.detect_motion (H := sample_cv) sample_config
    sample_camera_with_reference (Some small_frame) = None.
Proof.
  apply (proj2 (detect_motion_raises_iff (H := sample_cv) sample_config
                  sample_camera_with_reference (Some small_frame))).
  exists small_frame, dark_reference. repeat split; vm_compute; reflexivity.
Defined.

Lemma detect_motion_ignores_small_differences_witness :
  exists cm' : CameraManager.t,
    CameraManager.detect_motion (H := sample_cv) sample_config
      sample_camera_tiny (Some tiny_frame) = Some (false, cm').
Proof.
  apply (detect_motion_ignores_small_differences (H := sample_cv)
           sample_config sample_camera_tiny tiny_frame tiny_reference).
  - reflexivity.
  - reflexivity.
  - vm_compute. discriminate.
  - vm_compute. reflexivity.
  - vm_compute. repeat constructor; discriminate.
Defined.

Lemma movement_percentage_range_witness :
  (0 <= movement_percentage (threshold_binary dark_reference 25 255) <= 100)%Q.
Proof.
  apply (movement_percentage_range dark_reference dark_reference dark_reference).
  - vm_compute. reflexivity.
  - vm_compute. reflexivity.
Defined.

Lemma detect_motion_always_fires_above_30_witness :
  exists cm' : CameraManager.t,
    CameraManager.detect_motion (H := sample_cv) sample_config
      sample_camera_sensitive (Some tiny_frame) = Some (true, cm').
Proof.
  apply (detect_motion_always_fires_above_30 (H := sample_cv)
           sample_config sample_camera_sensitive tiny_frame tiny_reference).
  - reflexivity.
  - reflexivity.
  - vm_compute. reflexivity.
  - vm_compute. reflexivity.
  - vm_compute. reflexivity.
Defined.

Lemma detect_motion_modes_keep_separate_state_witness :
  exists (m : bool) (cm' : CameraManager.t),
    CameraManager.detect_motion (H := sample_cv)
      (Config.set_use_simple_motion_detection false sample_config)
      sample_camera_tiny (Some tiny_frame) = Some (m, cm')
    /\ CameraManager.prev_frame cm' = CameraManager.prev_frame sample_camera_tiny
    /\ CameraManager.background_subtractor cm'
       = CameraManager.background_subtractor sample_camera_tiny
         ++ [GaussianBlur_21 (OpenCV := sample_cv)
               (cvtColor_BGR2GRAY (OpenCV := sample_cv) tiny_frame)].
Proof.
  exact (proj2 (detect_motion_modes_keep_separate_state (H := sample_cv)
                  (Config.set_use_simple_motion_detection false sample_config)
                  sample_camera_tiny tiny_frame) eq_refl).
Defined.


Lemma update_preview_not_monitoring_witness :
  SecurityApp.update_preview (H := sample_cv) env_event sample_app0 empty_world
  = Some (sample_app0, empty_world).
Proof.
  apply (update_preview_not_monitoring (H := sample_cv) env_event
           sample_app0 empty_world).
  reflexivity.
Defined.

Lemma idle_tick_starts_iff_activity_witness :
  exists (a' : SecurityApp.t) (w' : World),
    SecurityApp.update_preview (H := sample_cv) env_event
      (fst sample_on) (snd sample_on) = Some (a', w')
    /\ recording (a', w') = false || true.
Proof.
  assert (Hrec : recording (fst sample_on, snd sample_on) = false)
    by (vm_compute; reflexivity).
  assert (Hverd : verdicts (H := sample_cv) env_event (fst sample_on)
                  = Some (false, true)) by (vm_compute; reflexivity).
  destruct (idle_tick_starts_iff_activity (H := sample_cv) env_event false true
              (fst sample_on) (snd sample_on)
              (reachable_pair _ sample_on_reachable) Hrec Hverd)
    as (a' & w' & Htick & Hr & _).
  exists a', w'. split; [exact Htick | exact Hr].
Defined.

Lemma voice_check_throttled_witness :
  true = AudioManager.detect_voice
           (SecurityApp.audio_manager (fst sample_on)) (voice_read env_event)
  /\ SecurityApp.last_voice_check_time (fst sample_recording)
     = time_check env_event.
Proof.
  assert (Htick : SecurityApp.update_preview (H := sample_cv) env_event
                    (fst sample_on) (snd sample_on)
                  = Some (fst sample_recording, snd sample_recording))
    by (vm_compute; reflexivity).
  assert (Hverd : verdicts (H := sample_cv) env_event (fst sample_on)
                  = Some (false, true)) by (vm_compute; reflexivity).
  apply (proj2 (voice_check_throttled (H := sample_cv) env_event false true
                  (fst sample_on) (fst sample_recording)
                  (snd sample_on) (snd sample_recording) Htick Hverd)).
  vm_compute. reflexivity.
Defined.




Lemma toggle_monitoring_off_ends_session_witness :
  live_writers
    (snd (SecurityApp.toggle_monitoring (fst sample_recording) (snd sample_recording)))
  = [].
Proof.
  assert (Hrec : recording (fst sample_recording, snd sample_recording) = true)
    by (vm_compute; reflexivity).
  pose proof (toggle_monitoring_off_ends_session (H := sample_cv)
                (fst sample_recording) (snd sample_recording)
                (reachable_pair _ (sample_after_reachable [env_event])) Hrec)
    as Hend.
  cbn zeta in Hend. destruct Hend as (_ & _ & _ & _ & Hlive & _). exact Hlive.
Defined.

Lemma update_motion_sensitivity_in_range_witness :
  1 <= CameraManager.motion_sensitivity
         (SecurityApp.camera_manager
            (SecurityApp.update_motion_sensitivity (127 # 10) sample_app0)) <= 25.
Proof.
  assert (Hv : (1 <= 127 # 10 <= 25)%Q) by (split; vm_compute; discriminate).
  pose proof (update_motion_sensitivity_in_range (127 # 10) sample_app0 Hv) as Hs.
  cbn zeta in Hs. destruct Hs as (_ & Hrange & _). exact Hrange.
Defined.

Lemma toggle_voice_detection_off_silences_witness :
  Config.voice_detection_enabled
    (SecurityApp.config (SecurityApp.toggle_voice_detection false (fst sample_on)))
  = false.
Proof.
  assert (Hverd : verdicts (H := sample_cv) env_event
                    (SecurityApp.toggle_voice_detection false (fst sample_on))
                  = Some (false, false)) by (vm_compute; reflexivity).
  exact (proj2 (toggle_voice_detection_off_silences (H := sample_cv) env_event
                  (fst sample_on) false false Hverd)).
Defined.

Lemma frame_size_tiers_witness :
  CameraManager.init_frame_size "4k" = (640, 480)
  /\ SecurityApp.quality_frame_size "4k" = (1920, 1080).
Proof.
  pose proof (frame_size_tiers (Some "4k"%string) "4k") as Ht.
  cbn zeta in Ht. destruct Ht as (_ & _ & Hother).
  apply Hother; discriminate.
Defined.

Lemma load_config_adds_three_keys_witness :
  ConfigManager.load_config "documents" (Some old_config_file)
    !! "motion_sensitivity"%string = Some (JInt 15)
  /\ ConfigManager.load_config "documents" (Some old_config_file)
       !! "video_resolution"%string = Some (JString "480p").
Proof.
  pose proof (load_config_adds_three_keys "documents" old_config_file) as Hl.
  cbn zeta in Hl. destruct Hl as (Hkeep & _ & _ & Hres & _).
  split.
  - apply Hkeep. vm_compute. reflexivity.
  - apply Hres. vm_compute. reflexivity.
Defined.

Lemma config_of_loaded_dict_witness :
  config_of_dict (ConfigManager.load_config "documents" (Some old_config_file))
  = None.
Proof.
  assert (Hnone : old_config_file !! "output_directory"%string = None)
    by (vm_compute; reflexivity).
  exact (proj2 (proj1 (proj2 (config_of_loaded_dict "documents" old_config_file))
                  "output_directory"%string (or_introl eq_refl) Hnone)).
Defined.
